(** * MSA IPO generator: the document-assembly code of [app.py]

    A shallow embedding of the Python program.  Python [str] values are
    sequences of Unicode code points, dictionaries are insertion-ordered
    association lists, and the python-docx document the builders mutate is
    an explicit state threaded through a small state-and-exception monad;
    paragraphs and runs are addressed by reference, as the Python
    variables [para] and [run] do. *)

From Stdlib Require Import ZArith NArith QArith.
From stdpp Require Import base list sorting strings.
Close Scope Q_scope.

(** ** Python strings *)

Abbreviation pystr := (list N).

(** A literal of the source, given by its ASCII characters. *)
Definition str (s : string) : pystr :=
  Ascii.N_of_ascii <$> String.list_ascii_of_string s.

(** U+2013, the dash of the task headings and of one description. *)
Definition en_dash : N := 8211%N.

Definition is_ascii (s : pystr) : bool := forallb (λ c, (c <? 128)%N) s.

Definition ascii_lower_char (c : N) : N :=
  if ((65 <=? c) && (c <=? 90))%N then (c + 32)%N else c.

Definition ascii_upper_char (c : N) : N :=
  if ((97 <=? c) && (c <=? 122))%N then (c - 32)%N else c.

Section Case.
(** [str.lower] and [str.upper] map ASCII strings byte by byte; on any
    other string they consult the interpreter's Unicode tables, which
    are taken here as the two functions below. *)
Variable unicode_lower unicode_upper : pystr → pystr.

Definition lower (s : pystr) : pystr :=
  if is_ascii s then ascii_lower_char <$> s else unicode_lower s.

Definition upper (s : pystr) : pystr :=
  if is_ascii s then ascii_upper_char <$> s else unicode_upper s.
End Case.

(** [s.startswith(p)] *)
Fixpoint startswith (s p : pystr) {struct p} : bool :=
  match p, s with
  | [], _ => true
  | _ :: _, [] => false
  | c :: p', d :: s' => bool_decide (c = d) && startswith s' p'
  end.

(** [s.endswith(p)] *)
Definition endswith (s p : pystr) : bool := startswith (reverse s) (reverse p).

(** [sub in s] *)
Fixpoint str_in (sub s : pystr) : bool :=
  match s with
  | [] => startswith [] sub
  | _ :: s' => startswith s sub || str_in sub s'
  end.

(** [s.replace(old, new)]: the occurrences of [old] are found from left to
    right and do not overlap; [skip] counts the characters of a found
    occurrence that are still to be passed over. *)
Fixpoint replace_from (old new : pystr) (skip : nat) (s : pystr) : pystr :=
  match s with
  | [] => []
  | c :: s' =>
      match skip with
      | S k => replace_from old new k s'
      | O =>
          if startswith s old
          then new ++ replace_from old new (pred (length old)) s'
          else c :: replace_from old new 0 s'
      end
  end.

Definition replace (s old new : pystr) : pystr :=
  match old with
  | [] => new ++ flat_map (λ c, c :: new) s
  | _ :: _ => replace_from old new 0 s
  end.

(** Comparison of two [str] values: lexicographic, by code point. *)
Fixpoint str_compare (a b : pystr) : comparison :=
  match a, b with
  | [], [] => Eq
  | [], _ :: _ => Lt
  | _ :: _, [] => Gt
  | x :: a', y :: b' =>
      match (x ?= y)%N with
      | Eq => str_compare a' b'
      | c => c
      end
  end.

Definition str_lt (a b : pystr) : Prop := str_compare a b = Lt.
Definition str_le (a b : pystr) : Prop := str_compare a b ≠ Gt.

Global Instance str_lt_dec a b : Decision (str_lt a b).
Proof. unfold str_lt. apply _. Defined.
Global Instance str_le_dec a b : Decision (str_le a b).
Proof. unfold str_le. apply _. Defined.

(** [sorted(l)] on a list of strings. *)
Definition sorted (l : list pystr) : list pystr := merge_sort str_le l.

(** ** Python dictionaries with string keys

    Entries are kept in insertion order; a key occurs at most once. *)

Abbreviation dict V := (list (pystr * V)).

Fixpoint dict_get {V} (d : dict V) (k : pystr) : option V :=
  match d with
  | [] => None
  | (k', v) :: d' => if decide (k' = k) then Some v else dict_get d' k
  end.

(** [d[k] = v]: an existing key keeps its position. *)
Fixpoint dict_set {V} (d : dict V) (k : pystr) (v : V) : dict V :=
  match d with
  | [] => [(k, v)]
  | (k', v') :: d' =>
      if decide (k' = k) then (k', v) :: d' else (k', v') :: dict_set d' k v
  end.

Definition dict_keys {V} (d : dict V) : list pystr := d.*1.

(** ** The python-docx document

    Lengths are stored in English Metric Units, as the library stores
    them.  An attribute that the program never assigns is [None]: the
    value is then inherited from the style or the template. *)

Definition Pt (points : Z) : Z := points * 12700.
Definition Inches (inches : Q) : Z :=
  (Qnum inches * 914400) `quot` Zpos (Qden inches).

Module WD_ALIGN_PARAGRAPH.
Inductive t := LEFT | CENTER | RIGHT | JUSTIFY.
End WD_ALIGN_PARAGRAPH.

Module WD_TAB_ALIGNMENT.
Inductive t := LEFT | CENTER | RIGHT.
End WD_TAB_ALIGNMENT.

Record Font := mkFont {
  font_name : option pystr;
  font_size : option Z;
  font_bold : option bool;
  font_italic : option bool;
  font_underline : option bool
}.

Record Run := mkRun { run_text : pystr; run_font : Font }.

Record ParagraphFormat := mkParagraphFormat {
  space_after : option Z;
  line_spacing : option Q;
  tab_stops : list (Z * WD_TAB_ALIGNMENT.t)
}.

Record Paragraph := mkParagraph {
  runs : list Run;
  alignment : option WD_ALIGN_PARAGRAPH.t;
  paragraph_format : ParagraphFormat
}.

Record Document := mkDocument {
  paragraphs : list Paragraph;
  top_margin : option Z;
  bottom_margin : option Z;
  left_margin : option Z;
  right_margin : option Z;
  footer_paragraphs : list Paragraph
}.

Definition empty_font : Font := mkFont None None None None None.
Definition empty_paragraph : Paragraph :=
  mkParagraph [] None (mkParagraphFormat None None []).

(** [Document()]: the body is empty and the footer of the only section
    holds one empty paragraph. *)
Definition new_Document : Document :=
  mkDocument [] None None None None [empty_paragraph].

(** A blank-line separator is a paragraph without runs. *)
Definition is_blank (p : Paragraph) : bool :=
  match runs p with [] => true | _ :: _ => false end.

(** *** References to the mutable objects of a document *)

Inductive ParaRef := BodyPara (i : nat) | FooterPara (i : nat).
Record RunRef := mkRunRef { run_para : ParaRef; run_index : nat }.

Definition get_para (d : Document) (p : ParaRef) : option Paragraph :=
  match p with
  | BodyPara i => paragraphs d !! i
  | FooterPara i => footer_paragraphs d !! i
  end.

Definition alter_para (f : Paragraph → Paragraph) (p : ParaRef)
    (d : Document) : Document :=
  match p with
  | BodyPara i =>
      mkDocument (alter f i (paragraphs d)) (top_margin d) (bottom_margin d)
        (left_margin d) (right_margin d) (footer_paragraphs d)
  | FooterPara i =>
      mkDocument (paragraphs d) (top_margin d) (bottom_margin d)
        (left_margin d) (right_margin d) (alter f i (footer_paragraphs d))
  end.

Definition with_runs (f : list Run → list Run) (p : Paragraph) : Paragraph :=
  mkParagraph (f (runs p)) (alignment p) (paragraph_format p).
Definition with_alignment (a : WD_ALIGN_PARAGRAPH.t) (p : Paragraph)
    : Paragraph :=
  mkParagraph (runs p) (Some a) (paragraph_format p).
Definition with_format (f : ParagraphFormat → ParagraphFormat)
    (p : Paragraph) : Paragraph :=
  mkParagraph (runs p) (alignment p) (f (paragraph_format p)).
Definition with_font (f : Font → Font) (r : Run) : Run :=
  mkRun (run_text r) (f (run_font r)).

Definition alter_run (f : Run → Run) (r : RunRef) (d : Document) : Document :=
  alter_para (with_runs (alter f (run_index r))) (run_para r) d.

(** *** The monad of the builders: document state and exceptions *)

Inductive exn := KeyError (k : pystr) | IndexError.

Inductive outcome (A : Type) := Return (a : A) | Raise (e : exn).
Arguments Return {A} a.
Arguments Raise {A} e.

Definition M (A : Type) : Type := Document → outcome A * Document.

Definition ret {A} (a : A) : M A := λ d, (Return a, d).
Definition raise {A} (e : exn) : M A := λ d, (Raise e, d).
Definition bind {A B} (m : M A) (k : A → M B) : M B :=
  λ d, match m d with
       | (Return a, d') => k a d'
       | (Raise e, d') => (Raise e, d')
       end.
Definition modify (f : Document → Document) : M unit := λ d, (Return (), f d).

Notation "x <- m ;; k" := (bind m (λ x, k))
  (at level 100, m at next level, right associativity).
Notation "m ;; k" := (bind m (λ _, k))
  (at level 100, right associativity).

(** [for x in l: body x] *)
Fixpoint for_each {A} (l : list A) (body : A → M unit) : M unit :=
  match l with
  | [] => ret ()
  | x :: l' => body x ;; for_each l' body
  end.

(** [doc.add_paragraph()] *)
Definition add_paragraph : M ParaRef :=
  λ d, (Return (BodyPara (length (paragraphs d))),
        mkDocument (paragraphs d ++ [empty_paragraph]) (top_margin d)
          (bottom_margin d) (left_margin d) (right_margin d)
          (footer_paragraphs d)).

(** [para.add_run(text)] *)
Definition add_run (para : ParaRef) (text : pystr) : M RunRef :=
  λ d, let n := default 0 (length ∘ runs <$> get_para d para) in
       (Return (mkRunRef para n),
        alter_para (with_runs (λ rs, rs ++ [mkRun text empty_font])) para d).

(** [run.font.name = v] and the like *)
Definition set_font_name (run : RunRef) (v : pystr) : M unit :=
  modify (alter_run (with_font (λ f,
    mkFont (Some v) (font_size f) (font_bold f) (font_italic f)
      (font_underline f))) run).
Definition set_font_size (run : RunRef) (v : Z) : M unit :=
  modify (alter_run (with_font (λ f,
    mkFont (font_name f) (Some v) (font_bold f) (font_italic f)
      (font_underline f))) run).
Definition set_font_bold (run : RunRef) (v : bool) : M unit :=
  modify (alter_run (with_font (λ f,
    mkFont (font_name f) (font_size f) (Some v) (font_italic f)
      (font_underline f))) run).
Definition set_font_italic (run : RunRef) (v : bool) : M unit :=
  modify (alter_run (with_font (λ f,
    mkFont (font_name f) (font_size f) (font_bold f) (Some v)
      (font_underline f))) run).
Definition set_font_underline (run : RunRef) (v : bool) : M unit :=
  modify (alter_run (with_font (λ f,
    mkFont (font_name f) (font_size f) (font_bold f) (font_italic f)
      (Some v))) run).

(** [para.alignment = a] *)
Definition set_alignment (para : ParaRef) (a : WD_ALIGN_PARAGRAPH.t)
    : M unit :=
  modify (alter_para (with_alignment a) para).

(** [para.paragraph_format.space_after = v] *)
Definition set_space_after (para : ParaRef) (v : Z) : M unit :=
  modify (alter_para (with_format (λ f,
    mkParagraphFormat (Some v) (line_spacing f) (tab_stops f))) para).

(** [para.paragraph_format.line_spacing = v] *)
Definition set_line_spacing (para : ParaRef) (v : Q) : M unit :=
  modify (alter_para (with_format (λ f,
    mkParagraphFormat (space_after f) (Some v) (tab_stops f))) para).

(** [para.paragraph_format.tab_stops.add_tab_stop(pos, align)] *)
Definition add_tab_stop (para : ParaRef) (pos : Z)
    (align : WD_TAB_ALIGNMENT.t) : M unit :=
  modify (alter_para (with_format (λ f,
    mkParagraphFormat (space_after f) (line_spacing f)
      (tab_stops f ++ [(pos, align)]))) para).

(** [footer.paragraphs[0]] *)
Definition footer_paragraph_0 : M ParaRef :=
  λ d, match footer_paragraphs d with
       | [] => (Raise IndexError, d)
       | _ :: _ => (Return (FooterPara 0), d)
       end.

(** [para.text = text]: the runs are replaced by one run. *)
Definition set_text (para : ParaRef) (text : pystr) : M unit :=
  modify (alter_para (with_runs (λ _, [mkRun text empty_font])) para).

(** [para.runs[0]] *)
Definition runs_0 (para : ParaRef) : M RunRef :=
  λ d, match runs <$> get_para d para with
       | Some (_ :: _) => (Return (mkRunRef para 0), d)
       | _ => (Raise IndexError, d)
       end.

Definition set_top_margin (v : Z) : M unit :=
  modify (λ d, mkDocument (paragraphs d) (Some v) (bottom_margin d)
                 (left_margin d) (right_margin d) (footer_paragraphs d)).
Definition set_bottom_margin (v : Z) : M unit :=
  modify (λ d, mkDocument (paragraphs d) (top_margin d) (Some v)
                 (left_margin d) (right_margin d) (footer_paragraphs d)).
Definition set_left_margin (v : Z) : M unit :=
  modify (λ d, mkDocument (paragraphs d) (top_margin d) (bottom_margin d)
                 (Some v) (right_margin d) (footer_paragraphs d)).
Definition set_right_margin (v : Z) : M unit :=
  modify (λ d, mkDocument (paragraphs d) (top_margin d) (bottom_margin d)
                 (left_margin d) (Some v) (footer_paragraphs d)).

(** ** Task descriptions database *)

Record TaskDefinition := mkTaskDefinition {
  task_name : pystr;
  task_amount : Z;
  task_type : pystr
}.

(** An entry of [selected_tasks]: the keys ['name'], ['fee'] and ['type']. *)
Record SelectedTask := mkSelectedTask {
  sel_name : pystr;
  sel_fee : Z;
  sel_type : pystr
}.

Definition DEFAULT_FEES : dict TaskDefinition := [
  (str "110", mkTaskDefinition (str "Civil Engineering Design") 40000
     (str "Hourly, Not-to-Exceed"));
  (str "120", mkTaskDefinition (str "Civil Schematic Design") 35000
     (str "Hourly, Not-to-Exceed"));
  (str "130", mkTaskDefinition (str "Civil Design Development") 45000
     (str "Hourly, Not-to-Exceed"));
  (str "140", mkTaskDefinition (str "Civil Construction Documents") 50000
     (str "Hourly, Not-to-Exceed"));
  (str "150", mkTaskDefinition (str "Civil Permitting") 40000
     (str "Hourly, Not-to-Exceed"));
  (str "210", mkTaskDefinition (str "Meetings and Coordination") 20000
     (str "Hourly, Not-to-Exceed"))
].

Definition TASK_DESCRIPTIONS : dict (list pystr) := [
  (str "110", [
     str "Kimley-Horn will prepare an onsite drainage report with supporting calculations showing the proposed development plan is consistent with the Southwest Florida Water Management District Basis of Review. This design will account for the stormwater design to support the development of the project site. The drainage report will include limited stormwater modeling to demonstrate that the Lot A site development will maintain the existing discharge rate and provide the required stormwater attenuation.";
     str "The onsite drainage report will include calculations for 25-year 24-hour and 100-year 24-hour design storm conditions in accordance with Southwest Florida Water Management District Guidelines. A base stormwater design will be provided for the project site showing reasonable locations for stormwater conveyance features and stormwater management pond sizing."
  ]);
  (str "120", [
     str "Kimley-Horn will prepare Civil Schematic Design deliverables in accordance with the Client's Design Project Deliverables Checklist. For the Civil Schematic Design task, the deliverables that Kimley-Horn will provide consist of Civil Site Plan, Establish Finish Floor Elevations, Utility Will Serve Letters and Points of Service, Utility Routing and Easement Requirements."
  ]);
  (str "130", [
     str "Upon Client approval of the Schematic Design task, Kimley-Horn will prepare Design Development Plans of the civil design in accordance with the Client's Design Project Deliverables Checklist for Civil Design Development Deliverables. These documents will be approximately 50% complete and will include detail for City code review and preliminary pricing but will not include enough detail for construction bidding."
  ]);
  (str "140", [
     str "Based on the approved Development Plan, Kimley-Horn will provide engineering and design services for the preparation of site construction plans for on-site improvements.";
     str "Cover Sheet";
     str "The cover sheet includes plan contents, vicinity map, legal description and team identification.";
     str "Existing Conditions Plan/Demolition Plan";
     str "This sheet will include and identify the required demolition of the existing items on the project site.";
     str "Site Layout Plan";
     str "This sheet will include building setback lines, property lines, outline of building footprint, parking areas, handicap access ramps, sidewalks, crosswalks, driveways, and traffic lanes.";
     str "Grading and Drainage Plan";
     str "This sheet will include existing and proposed spot elevations and contours, building finish floor elevations, parking area drainage patterns, and stormwater inlet and pipe locations and sizes.";
     str "Utility Plan";
     str "This sheet will show the location and size of all water, sanitary sewer and reclaimed water facilities required to serve the development.";
     str "Erosion and Sediment Control Plan";
     str "This sheet will include erosion and sediment control measures designed to be implemented during construction.";
     str "Details";
     str "Standard and modified typical construction details will be provided."
  ]);
  (str "150", [
     str "Prepare and submit on the Client's behalf the following permitting packages for review/approval of construction documents, and attend meetings required to obtain the following Agency approvals:";
     str "USF Site Development Permit";
     str "Southwest Florida Water Management District Environmental Resource Permit " ++ [en_dash] ++ str " Minor Modification";
     str "City of Tampa Water Department Commitment / Construction Plan Approval";
     str "Hillsborough County Environmental Protection Commission";
     str "Kimley-Horn will coordinate with the City of Tampa Development Review and coordination with the Florida Department of Transportation and the Hillsborough County departments as needed to obtain the necessary regulatory and utility approval of the site plans and associated drainage facilities. We will assist the Client with meetings necessary to gain site plan approval.";
     str "This scope does not anticipate a Geotechnical or Environmental Assessment Report, Survey, Topographic Survey, or Arborist Report be required for this permit application.";
     str "It is assumed Client will provide the needed information regarding the development program and requirements. Kimley-Horn will work with the Owner and their team to integrate the necessary design requirements into the Civil design to support entitlement, platting, and development approvals.";
     str "These permit applications will be submitted using the electronic permitting submittal system (web-based system) for the respective jurisdictions where applicable."
  ]);
  (str "210", [
     str "Kimley-Horn will be available to provide miscellaneous project support at the direction of the Client. This task may include design meetings, additional permit support, permit research, or other miscellaneous tasks associated with the initial and future development of the project site. This task will also cover tasks such as design coordination meetings, scheduling, coordination with other client consultants, responses to additional rounds of agency comments."
  ])
].

(** ** Document generation functions *)

(** [project_info]: the keys read with [.get] may be missing or [None]. *)
Record ProjectInfo := mkProjectInfo {
  pi_title : pystr;
  pi_ipo_number : pystr;
  pi_name : pystr;
  pi_name_line2 : option pystr;
  pi_project_manager : pystr;
  pi_project_number : pystr;
  pi_overall_understanding : option pystr;
  pi_lot_understanding : option pystr
}.

Record ClientInfo := mkClientInfo {
  ci_name : pystr;
  ci_master_agreement_date : pystr
}.

(** Truth value of an optional string: [None] and [''] are false. *)
Definition truthy (o : option pystr) : bool :=
  match o with
  | Some (_ :: _) => true
  | _ => false
  end.

Definition sub_section_keywords : list pystr :=
  [str "cover sheet"; str "utility plan"; str "site layout"; str "site plan";
   str "grading plan"; str "drainage plan"; str "paving";
   str "erosion control"; str "detail"; str "existing conditions";
   str "demolition"].

Section Builders.
Variable unicode_lower unicode_upper : pystr → pystr.

(** Add title section at top of document. *)
Definition add_title_section (project_name ipo_number : pystr) : M unit :=
  (* Main title - BOLD, CENTERED, 12pt *)
  para <- add_paragraph ;;
  run <- add_run para (upper unicode_upper project_name) ;;
  set_font_name run (str "Calibri") ;;
  set_font_size run (Pt 12) ;;
  set_font_bold run true ;;
  set_alignment para WD_ALIGN_PARAGRAPH.CENTER ;;
  set_space_after para (Pt 0) ;;
  set_line_spacing para 1%Q ;;
  (* IPO subtitle - BOLD, CENTERED, 10pt *)
  para <- add_paragraph ;;
  run <- add_run para (str "INDIVIDUAL PROJECT ORDER NUMBER " ++ ipo_number) ;;
  set_font_name run (str "Calibri") ;;
  set_font_size run (Pt 10) ;;
  set_font_bold run true ;;
  set_alignment para WD_ALIGN_PARAGRAPH.CENTER ;;
  set_space_after para (Pt 0) ;;
  set_line_spacing para 1%Q ;;
  (* Blank lines *)
  _ <- add_paragraph ;;
  _ <- add_paragraph ;;
  ret ().

(** Add opening paragraph with master agreement reference. *)
Definition add_opening_paragraph (client_name master_agreement_date : pystr)
    : M unit :=
  para <- add_paragraph ;;
  run <- add_run para
    (str "Describing a specific agreement between Kimley-Horn and Associates, Inc. "
     ++ str "(the Consultant), and " ++ client_name
     ++ str " (the Client) in accordance with the terms of the "
     ++ str "Master Agreement for Continuing Professional Services dated "
     ++ master_agreement_date ++ str ", "
     ++ str "which is incorporated herein by reference.") ;;
  set_font_name run (str "Calibri") ;;
  set_font_size run (Pt 11) ;;
  set_alignment para WD_ALIGN_PARAGRAPH.JUSTIFY ;;
  set_space_after para (Pt 0) ;;
  set_line_spacing para 1%Q ;;
  (* Blank line *)
  _ <- add_paragraph ;;
  ret ().

(** Add Identification of Project section. *)
Definition add_project_identification (project_name : pystr)
    (project_name_line2 : option pystr)
    (project_manager project_number : pystr) : M unit :=
  (* Section heading - BOLD + UNDERLINED *)
  para <- add_paragraph ;;
  run <- add_run para (str "Identification of Project:") ;;
  set_font_name run (str "Calibri") ;;
  set_font_size run (Pt 11) ;;
  set_font_bold run true ;;
  set_font_underline run true ;;
  set_alignment para WD_ALIGN_PARAGRAPH.LEFT ;;
  set_space_after para (Pt 0) ;;
  set_line_spacing para 1%Q ;;
  (* Blank line *)
  _ <- add_paragraph ;;
  (* Project Name - BOLD, with tab alignment at 2.5 inches *)
  para <- add_paragraph ;;
  add_tab_stop para (Inches 2.5) WD_TAB_ALIGNMENT.LEFT ;;
  run <- add_run para (str "Project Name:" ++ [9%N]) ;;
  set_font_name run (str "Calibri") ;;
  set_font_size run (Pt 11) ;;
  set_font_bold run true ;;
  run <- add_run para project_name ;;
  set_font_name run (str "Calibri") ;;
  set_font_size run (Pt 11) ;;
  set_font_bold run true ;;
  set_space_after para (Pt 0) ;;
  set_line_spacing para 1%Q ;;
  (* Second line of project name (if provided) *)
  (if truthy project_name_line2 then
     para <- add_paragraph ;;
     add_tab_stop para (Inches 2.5) WD_TAB_ALIGNMENT.LEFT ;;
     run <- add_run para [9%N] ;;
     run <- add_run para (default [] project_name_line2) ;;
     set_font_name run (str "Calibri") ;;
     set_font_size run (Pt 11) ;;
     set_font_bold run true ;;
     set_space_after para (Pt 0) ;;
     set_line_spacing para 1%Q
   else ret ()) ;;
  (* KH Project Manager *)
  para <- add_paragraph ;;
  add_tab_stop para (Inches 2.5) WD_TAB_ALIGNMENT.LEFT ;;
  run <- add_run para (str "KH Project Manager:" ++ [9%N]) ;;
  set_font_name run (str "Calibri") ;;
  set_font_size run (Pt 11) ;;
  set_font_bold run true ;;
  run <- add_run para project_manager ;;
  set_font_name run (str "Calibri") ;;
  set_font_size run (Pt 11) ;;
  set_font_bold run true ;;
  set_space_after para (Pt 0) ;;
  set_line_spacing para 1%Q ;;
  (* Project Number *)
  para <- add_paragraph ;;
  add_tab_stop para (Inches 2.5) WD_TAB_ALIGNMENT.LEFT ;;
  run <- add_run para (str "Project Number:" ++ [9%N]) ;;
  set_font_name run (str "Calibri") ;;
  set_font_size run (Pt 11) ;;
  set_font_bold run true ;;
  run <- add_run para project_number ;;
  set_font_name run (str "Calibri") ;;
  set_font_size run (Pt 11) ;;
  set_font_bold run true ;;
  set_space_after para (Pt 0) ;;
  set_line_spacing para 1%Q ;;
  (* Blank line *)
  _ <- add_paragraph ;;
  ret ().

(** Add a section with BOLD+UNDERLINED heading and content paragraphs. *)
Definition add_section_with_heading (heading_text : pystr)
    (content_paragraphs : list pystr) : M unit :=
  (* Section heading *)
  para <- add_paragraph ;;
  run <- add_run para heading_text ;;
  set_font_name run (str "Calibri") ;;
  set_font_size run (Pt 11) ;;
  set_font_bold run true ;;
  set_font_underline run true ;;
  set_alignment para WD_ALIGN_PARAGRAPH.LEFT ;;
  set_space_after para (Pt 0) ;;
  set_line_spacing para 1%Q ;;
  (* Blank line *)
  _ <- add_paragraph ;;
  (* Content paragraphs *)
  for_each content_paragraphs (λ content,
    para <- add_paragraph ;;
    run <- add_run para content ;;
    set_font_name run (str "Calibri") ;;
    set_font_size run (Pt 11) ;;
    set_alignment para WD_ALIGN_PARAGRAPH.JUSTIFY ;;
    set_space_after para (Pt 0) ;;
    set_line_spacing para 1%Q ;;
    (* Blank line after paragraph *)
    _ <- add_paragraph ;;
    ret ()).

(** The test of the scope-of-services loop for a sub-section heading. *)
Definition is_subsection (desc : pystr) : bool :=
  bool_decide (length desc < 100)
  && existsb (λ kw, str_in kw (lower unicode_lower desc)) sub_section_keywords
  && negb (endswith desc (str ".")).

(** The body of the inner loop of [add_scope_of_services]. *)
Definition add_description (desc : pystr) : M unit :=
  para <- add_paragraph ;;
  (* Check if sub-section heading *)
  let is_subsection := is_subsection desc in
  run <- add_run para desc ;;
  set_font_name run (str "Calibri") ;;
  set_font_size run (Pt 11) ;;
  (* Apply ITALIC for sub-section headings *)
  (if is_subsection then set_font_italic run true else ret ()) ;;
  set_alignment para WD_ALIGN_PARAGRAPH.JUSTIFY ;;
  set_space_after para (Pt 0) ;;
  set_line_spacing para 1%Q ;;
  (* Only add blank line if NOT a sub-section heading *)
  (if negb is_subsection then _ <- add_paragraph ;; ret () else ret ()).

(** The text of a task heading. *)
Definition task_heading (task_num : pystr) (task : SelectedTask) : pystr :=
  str "Task " ++ task_num ++ str " " ++ [en_dash] ++ str " "
  ++ replace (sel_name task) (str "Civil ") (str "").

(** The body of the outer loop of [add_scope_of_services]. *)
Definition add_task (selected_tasks : dict SelectedTask) (task_num : pystr)
    : M unit :=
  task <- (match dict_get selected_tasks task_num with
           | Some task => ret task
           | None => raise (KeyError task_num)
           end) ;;
  descriptions <- (match dict_get TASK_DESCRIPTIONS task_num with
                   | Some descriptions => ret descriptions
                   | None => raise (KeyError task_num)
                   end) ;;
  (* Task heading - BOLD + UNDERLINED *)
  para <- add_paragraph ;;
  run <- add_run para (task_heading task_num task) ;;
  set_font_name run (str "Calibri") ;;
  set_font_size run (Pt 11) ;;
  set_font_bold run true ;;
  set_font_underline run true ;;
  set_alignment para WD_ALIGN_PARAGRAPH.JUSTIFY ;;
  set_space_after para (Pt 0) ;;
  set_line_spacing para 1%Q ;;
  (* Blank line after task heading *)
  _ <- add_paragraph ;;
  (* Task description paragraphs *)
  for_each descriptions add_description.

(** Add Specific scope of basic Services section with tasks. *)
Definition add_scope_of_services (selected_tasks : dict SelectedTask)
    : M unit :=
  (* Section heading *)
  para <- add_paragraph ;;
  run <- add_run para (str "Specific scope of basic Services:") ;;
  set_font_name run (str "Calibri") ;;
  set_font_size run (Pt 11) ;;
  set_font_bold run true ;;
  set_font_underline run true ;;
  set_alignment para WD_ALIGN_PARAGRAPH.LEFT ;;
  set_space_after para (Pt 0) ;;
  set_line_spacing para 1%Q ;;
  (* Blank line *)
  _ <- add_paragraph ;;
  (* Add each selected task *)
  for_each (sorted (dict_keys selected_tasks)) (add_task selected_tasks).

(** Add simple footer text. *)
Definition add_simple_footer (footer_text : pystr) : M unit :=
  para <- footer_paragraph_0 ;;
  set_text para footer_text ;;
  run <- runs_0 para ;;
  set_font_name run (str "Calibri") ;;
  set_font_size run (Pt 9) ;;
  set_alignment para WD_ALIGN_PARAGRAPH.LEFT.

(** The statements of [generate_msa_ipo_document] between [Document()]
    and [doc.save]. *)
Definition build_document (project_info : ProjectInfo)
    (client_info : ClientInfo) (selected_tasks : dict SelectedTask)
    : M unit :=
  (* Set margins *)
  set_top_margin (Inches 1.0) ;;
  set_bottom_margin (Inches 1.0) ;;
  set_left_margin (Inches 1.0) ;;
  set_right_margin (Inches 1.0) ;;
  (* Add document sections *)
  add_title_section (pi_title project_info) (pi_ipo_number project_info) ;;
  add_opening_paragraph (ci_name client_info)
    (ci_master_agreement_date client_info) ;;
  add_project_identification (pi_name project_info)
    (pi_name_line2 project_info) (pi_project_manager project_info)
    (pi_project_number project_info) ;;
  (* Overall Project Understanding *)
  (if truthy (pi_overall_understanding project_info) then
     add_section_with_heading (str "Overall Project Understanding:")
       [default [] (pi_overall_understanding project_info)]
   else ret ()) ;;
  (* Lot Specific Project Understanding *)
  (if truthy (pi_lot_understanding project_info) then
     add_section_with_heading (str "Lot Specific Project Understanding:")
       [default [] (pi_lot_understanding project_info)]
   else ret ()) ;;
  (* Scope of Services with tasks *)
  add_scope_of_services selected_tasks ;;
  (* Add simple footer *)
  add_simple_footer (str "rev 07/2024").

(** The files written so far, by path. *)
Definition FileStore : Type := list (pystr * Document).

(** Generate Master Services Agreement IPO document: returns
    [output_path] after saving, or propagates the exception. *)
Definition generate_msa_ipo_document (project_info : ProjectInfo)
    (client_info : ClientInfo) (selected_tasks : dict SelectedTask)
    (output_path : pystr) (fs : FileStore) : outcome pystr * FileStore :=
  match build_document project_info client_info selected_tasks new_Document
  with
  | (Return _, doc) => (Return output_path, dict_set fs output_path doc)
  | (Raise e, _) => (Raise e, fs)
  end.
End Builders.

(** ** The task-selection loop of the form

    The state of the widgets of the page: [checkbox task_num] is the value
    of the box "Include Task", [number_input task_num] the value of the
    field "Fee Amount", [None] while nothing has been entered. *)

Section Selection.
Variable checkbox : pystr → bool.
Variable number_input : pystr → option Z.

(** [fee_amount if fee_amount is not None else task['amount']] *)
Definition final_fee (fee_amount : option Z) (task : TaskDefinition) : Z :=
  match fee_amount with
  | Some v => v
  | None => task_amount task
  end.

(** The loop over [task_nums], starting from the dictionary
    [selected_tasks]. *)
Fixpoint select_tasks (task_nums : list pystr)
    (selected_tasks : dict SelectedTask) : outcome (dict SelectedTask) :=
  match task_nums with
  | [] => Return selected_tasks
  | task_num :: rest =>
      match dict_get DEFAULT_FEES task_num with
      | None => Raise (KeyError task_num)
      | Some task =>
          let task_selected := checkbox task_num in
          let fee_amount := number_input task_num in
          if task_selected then
            let final_fee := final_fee fee_amount task in
            select_tasks rest
              (dict_set selected_tasks task_num
                 (mkSelectedTask (task_name task) final_fee (task_type task)))
          else select_tasks rest selected_tasks
      end
  end.

(** The dictionary [selected_tasks] after the loop. *)
Definition selected_tasks : outcome (dict SelectedTask) :=
  select_tasks (sorted (dict_keys DEFAULT_FEES)) [].
End Selection.

(** ** Vocabulary of the statements *)

(** The document [d] with the paragraphs [ps] added at the end of its body. *)
Definition append_paragraphs (d : Document) (ps : list Paragraph) : Document :=
  mkDocument (paragraphs d ++ ps) (top_margin d) (bottom_margin d)
    (left_margin d) (right_margin d) (footer_paragraphs d).

(** The body paragraphs a builder leaves in a new document. *)
Definition emitted (m : M unit) : list Paragraph :=
  paragraphs (m new_Document).2.

(** A run in Calibri of the given size and flags. *)
Definition calibri_run (text : pystr) (size : Z)
    (bold italic underline : option bool) : Run :=
  mkRun text (mkFont (Some (str "Calibri")) (Some size) bold italic underline).

(** A paragraph with space-after 0 and line spacing 1.0. *)
Definition spaced_paragraph (rs : list Run)
    (a : option WD_ALIGN_PARAGRAPH.t) (tabs : list (Z * WD_TAB_ALIGNMENT.t))
    : Paragraph :=
  mkParagraph rs a (mkParagraphFormat (Some (Pt 0)) (Some 1%Q) tabs).

(** A bold and underlined heading line. *)
Definition heading_paragraph (text : pystr) (a : WD_ALIGN_PARAGRAPH.t)
    : Paragraph :=
  spaced_paragraph [calibri_run text (Pt 11) (Some true) None (Some true)]
    (Some a) [].

(** A description fragment as an italic sub-heading and as a normal
    paragraph. *)
Definition subheading_paragraph (desc : pystr) : Paragraph :=
  spaced_paragraph [calibri_run desc (Pt 11) None (Some true) None]
    (Some WD_ALIGN_PARAGRAPH.JUSTIFY) [].
Definition body_paragraph (desc : pystr) : Paragraph :=
  spaced_paragraph [calibri_run desc (Pt 11) None None None]
    (Some WD_ALIGN_PARAGRAPH.JUSTIFY) [].

(** A label and value line of the identification block. *)
Definition label_paragraph (label value : pystr) : Paragraph :=
  spaced_paragraph
    [calibri_run label (Pt 11) (Some true) None None;
     calibri_run value (Pt 11) (Some true) None None]
    None [(Inches 2.5, WD_TAB_ALIGNMENT.LEFT)].

(** The line of the second project name: a tab, then the name. *)
Definition name_line2_paragraph (value : pystr) : Paragraph :=
  spaced_paragraph
    [mkRun [9%N] empty_font; calibri_run value (Pt 11) (Some true) None None]
    None [(Inches 2.5, WD_TAB_ALIGNMENT.LEFT)].

(** [sub] occurs in [s]. *)
Definition occurs_in (sub s : pystr) : Prop := ∃ pre post, s = pre ++ sub ++ post.

Section CaptionCondition.
Variable unicode_lower : pystr → pystr.

(** The three conditions under which a fragment is a sub-heading. *)
Definition caption_condition (desc : pystr) : Prop :=
  length desc < 100
  ∧ (∃ kw, kw ∈ sub_section_keywords ∧ occurs_in kw (lower unicode_lower desc))
  ∧ ¬ (∃ pre, desc = pre ++ str ".").

(** The paragraphs of one description fragment. *)
Definition description_paragraphs (desc : pystr) : list Paragraph :=
  if is_subsection unicode_lower desc then [subheading_paragraph desc]
  else [body_paragraph desc; empty_paragraph].

(** The paragraphs of one task: heading, blank line, descriptions. *)
Definition task_paragraphs (task_num : pystr) (task : SelectedTask)
    (descriptions : list pystr) : list Paragraph :=
  heading_paragraph (task_heading task_num task) WD_ALIGN_PARAGRAPH.JUSTIFY
  :: empty_paragraph :: flat_map description_paragraphs descriptions.
End CaptionCondition.

(** [r] is [s] with the occurrences of [old] removed, found from left to
    right. *)
Inductive removes_all (old : pystr) : pystr → pystr → Prop :=
  | removes_nil : removes_all old [] []
  | removes_hit s r :
      removes_all old s r → removes_all old (old ++ s) r
  | removes_keep c s r :
      startswith (c :: s) old = false →
      removes_all old s r → removes_all old (c :: s) (c :: r).

(** The reading of the heading in which only a leading ["Civil "] is
    dropped from the name. *)
Definition strip_leading (p s : pystr) : pystr :=
  if startswith s p then drop (length p) s else s.

(** All selected task codes have descriptions. *)
Definition tasks_known (selected_tasks : dict SelectedTask) : Prop :=
  ∀ k, k ∈ dict_keys selected_tasks → is_Some (dict_get TASK_DESCRIPTIONS k).

(** The identity stands in for the Unicode tables where only ASCII text
    is evaluated. *)
Definition ascii_only : pystr → pystr := λ s, s.

(** The paragraphs of the selected task [task_num]. *)
Definition selected_task_paragraphs (unicode_lower : pystr → pystr)
    (selected_tasks : dict SelectedTask) (task_num : pystr)
    : list Paragraph :=
  match dict_get selected_tasks task_num, dict_get TASK_DESCRIPTIONS task_num
  with
  | Some task, Some descriptions =>
      task_paragraphs unicode_lower task_num task descriptions
  | _, _ => []
  end.

(** The record entered in [selected_tasks] for a task of the catalog. *)
Definition selected_record (fee_amount : option Z) (task : TaskDefinition)
    : SelectedTask :=
  mkSelectedTask (task_name task) (final_fee fee_amount task) (task_type task).

(** The footer paragraph of a generated document. *)
Definition footer_paragraph : Paragraph :=
  mkParagraph [calibri_run (str "rev 07/2024") (Pt 9) None None None]
    (Some WD_ALIGN_PARAGRAPH.LEFT) (mkParagraphFormat None None []).

(** ** Sample inputs *)

Definition example_project : ProjectInfo :=
  mkProjectInfo (str "Example Project") (str "01") (str "Example Project")
    None (str "J. Doe, PE") (str "100000001") (Some (str "Overall text."))
    (Some (str "Lot text.")).

Definition example_client : ClientInfo :=
  mkClientInfo (str "ACE Fletcher LLC") (str "August 15, 2024").

(** Tasks 210 and 110, selected in that order. *)
Definition example_tasks : dict SelectedTask :=
  [(str "210", mkSelectedTask (str "Meetings and Coordination") 20000
                 (str "Hourly, Not-to-Exceed"));
   (str "110", mkSelectedTask (str "Civil Engineering Design") 40000
                 (str "Hourly, Not-to-Exceed"))].

(** A selection with a code that the catalog does not have. *)
Definition unknown_tasks : dict SelectedTask :=
  [(str "110", mkSelectedTask (str "Civil Engineering Design") 40000
                 (str "Hourly, Not-to-Exceed"));
   (str "999", mkSelectedTask (str "Survey") 1000 (str "Lump Sum"))].

Definition temp_path : pystr := str "/tmp/temp_ipo.docx".

(** Only the box of task 110 is ticked. *)
Definition only_110 (task_num : pystr) : bool :=
  bool_decide (task_num = str "110").

(** The catalog entry of task 110. *)
Definition task_110 : TaskDefinition :=
  mkTaskDefinition (str "Civil Engineering Design") 40000
    (str "Hourly, Not-to-Exceed").

(** A fee of 0 entered in each field, and no fee entered in any field. *)
Definition fee_zero (task_num : pystr) : option Z := Some 0%Z.
Definition fee_blank (task_num : pystr) : option Z := None.

(** The run uses the font family Calibri. *)
Definition calibri (r : Run) : Prop :=
  font_name (run_font r) = Some (str "Calibri").

(** A paragraph that is not a blank line has space-after 0 and line
    spacing 1.0. *)
Definition well_spaced (p : Paragraph) : Prop :=
  is_blank p = false →
  space_after (paragraph_format p) = Some 0%Z
  ∧ line_spacing (paragraph_format p) = Some 1%Q.

(** The tab of the second name line, a run without any font attribute. *)
Definition bare_tab_run : Run := mkRun [9%N] empty_font.

(** Spacing as above, and every run in Calibri but for bare tabs. *)
Definition styled (p : Paragraph) : Prop :=
  well_spaced p ∧ Forall (λ r, calibri r ∨ r = bare_tab_run) (runs p).

(** ** The rest of the page: summary, validation and the button

    The values of the text widgets of the form; an untouched field is the
    empty string. *)

Module Form.
Record t := mk {
  project_title : pystr;
  project_name : pystr;
  ipo_number : pystr;
  project_name_line2 : pystr;
  client_name : pystr;
  master_agreement_date : pystr;
  project_manager : pystr;
  project_number : pystr;
  overall_understanding : pystr;
  lot_understanding : pystr
}.
End Form.

(** Truth value of a string: [''] is false. *)
Definition str_truthy (s : pystr) : bool :=
  match s with [] => false | _ :: _ => true end.

(** The loop of the summary that adds up the fees, from [total_fee]. *)
Fixpoint add_fees (selected_tasks : dict SelectedTask)
    (task_nums : list pystr) (total_fee : Z) : outcome Z :=
  match task_nums with
  | [] => Return total_fee
  | task_num :: rest =>
      match dict_get selected_tasks task_num with
      | None => Raise (KeyError task_num)
      | Some task => add_fees selected_tasks rest (total_fee + sel_fee task)
      end
  end.

(** [total_fee] after the loop of the summary, which the page runs when
    [selected_tasks] is not empty. *)
Definition total_fee (selected_tasks : dict SelectedTask) : outcome Z :=
  add_fees selected_tasks (sorted (dict_keys selected_tasks)) 0.

Definition required_fields (f : Form.t) : dict pystr :=
  [(str "Project Title", Form.project_title f);
   (str "IPO Number", Form.ipo_number f);
   (str "Project Name", Form.project_name f);
   (str "Client Name", Form.client_name f);
   (str "Master Agreement Date", Form.master_agreement_date f);
   (str "KH Project Manager", Form.project_manager f);
   (str "Project Number", Form.project_number f);
   (str "Overall Project Understanding", Form.overall_understanding f);
   (str "Lot Specific Project Understanding", Form.lot_understanding f)].

(** [[field for field, value in required_fields.items() if not value]] *)
Definition missing_fields (f : Form.t) : list pystr :=
  (List.filter (λ item, negb (str_truthy item.2)) (required_fields f)).*1.

(** [not missing_fields and bool(selected_tasks)] *)
Definition can_generate (f : Form.t) (selected_tasks : dict SelectedTask)
    : bool :=
  match missing_fields f with
  | [] => match selected_tasks with [] => false | _ :: _ => true end
  | _ :: _ => false
  end.

(** The name offered for the download. *)
Definition download_filename (ipo_number project_name : pystr) : pystr :=
  str "IPO_" ++ ipo_number ++ str "_"
  ++ take 30 (replace project_name (str " ") (str "_")) ++ str ".docx".

(** What the page shows after the button was pressed: the download of the
    file read back from the temporary path, or the error message.  The
    content of a file is the document that was saved in it. *)
Inductive ButtonResult :=
  | Download (data : Document) (file_name : pystr)
  | ErrorShown (e : exn)
  | OpenFailed.

Section Button.
Variable unicode_lower unicode_upper : pystr → pystr.

(** The dictionary [project_info] prepared by the button. *)
Definition prepare_project_info (f : Form.t) : ProjectInfo :=
  mkProjectInfo (Form.project_title f) (Form.ipo_number f)
    (Form.project_name f)
    (if str_truthy (Form.project_name_line2 f)
     then Some (Form.project_name_line2 f) else None)
    (Form.project_manager f) (Form.project_number f)
    (Some (Form.overall_understanding f)) (Some (Form.lot_understanding f)).

Definition prepare_client_info (f : Form.t) : ClientInfo :=
  mkClientInfo (Form.client_name f) (Form.master_agreement_date f).

(** The body of [if st.button(...)]: generate at the temporary path, read
    the file back and offer it; any exception is shown instead. *)
Definition on_generate (f : Form.t) (selected_tasks : dict SelectedTask)
    (fs : FileStore) : ButtonResult * FileStore :=
  let project_info := prepare_project_info f in
  let client_info := prepare_client_info f in
  let temp_path := str "/tmp/temp_ipo.docx" in
  match generate_msa_ipo_document unicode_lower unicode_upper project_info
          client_info selected_tasks temp_path fs
  with
  | (Return _, fs') =>
      match dict_get fs' temp_path with
      | Some data =>
          (Download data
             (download_filename (Form.ipo_number f) (Form.project_name f)),
           fs')
      | None => (OpenFailed, fs')
      end
  | (Raise e, fs') => (ErrorShown e, fs')
  end.
End Button.

(** A filled form. *)
Definition example_form : Form.t :=
  Form.mk (str "Example Project") (str "USF Fletcher District Phase 1")
    (str "01") (str "") (str "ACE Fletcher LLC") (str "August 15, 2024")
    (str "J. Doe, PE") (str "100000001") (str "Overall text.")
    (str "Lot text.").

(** The paragraph is a label line: one left tab stop at 2.5 inches, and a
    first run that ends with a tab. *)
Definition tab_aligned (p : Paragraph) : Prop :=
  tab_stops (paragraph_format p) = [(2286000%Z, WD_TAB_ALIGNMENT.LEFT)]
  ∧ ∃ r rest, runs p = r :: rest ∧ endswith (run_text r) [9%N] = true.

(** ** The paragraphs of each section, written out *)

(** The title block: [text] is the upper-cased title. *)
Definition title_paragraphs (text ipo_number : pystr) : list Paragraph :=
  [spaced_paragraph [calibri_run text (Pt 12) (Some true) None None]
     (Some WD_ALIGN_PARAGRAPH.CENTER) [];
   spaced_paragraph
     [calibri_run (str "INDIVIDUAL PROJECT ORDER NUMBER " ++ ipo_number)
        (Pt 10) (Some true) None None]
     (Some WD_ALIGN_PARAGRAPH.CENTER) [];
   empty_paragraph; empty_paragraph].

(** The opening clause. *)
Definition opening_paragraphs (client_name master_agreement_date : pystr)
    : list Paragraph :=
  [body_paragraph
     (str "Describing a specific agreement between Kimley-Horn and Associates, Inc. "
      ++ str "(the Consultant), and " ++ client_name
      ++ str " (the Client) in accordance with the terms of the "
      ++ str "Master Agreement for Continuing Professional Services dated "
      ++ master_agreement_date ++ str ", "
      ++ str "which is incorporated herein by reference.");
   empty_paragraph].

(** The identification block; the second name line has a paragraph only
    when it is a string that is not empty. *)
Definition identification_paragraphs (project_name : pystr)
    (project_name_line2 : option pystr)
    (project_manager project_number : pystr) : list Paragraph :=
  [heading_paragraph (str "Identification of Project:")
     WD_ALIGN_PARAGRAPH.LEFT;
   empty_paragraph;
   label_paragraph (str "Project Name:" ++ [9%N]) project_name]
  ++ match project_name_line2 with
     | Some (c :: s) => [name_line2_paragraph (c :: s)]
     | Some [] | None => []
     end
  ++ [label_paragraph (str "KH Project Manager:" ++ [9%N]) project_manager;
      label_paragraph (str "Project Number:" ++ [9%N]) project_number;
      empty_paragraph].

(** A labelled section with one block of text; no paragraph at all when
    the text is missing or empty. *)
Definition understanding_paragraphs (heading_text : pystr)
    (text : option pystr) : list Paragraph :=
  match text with
  | Some (c :: s) =>
      [heading_paragraph heading_text WD_ALIGN_PARAGRAPH.LEFT;
       empty_paragraph; body_paragraph (c :: s); empty_paragraph]
  | Some [] | None => []
  end.

(** The scope of services: the heading, a blank line and the paragraphs
    of the tasks, by ascending code. *)
Definition scope_paragraphs (unicode_lower : pystr → pystr)
    (selected_tasks : dict SelectedTask) : list Paragraph :=
  heading_paragraph (str "Specific scope of basic Services:")
    WD_ALIGN_PARAGRAPH.LEFT
  :: empty_paragraph
  :: flat_map (selected_task_paragraphs unicode_lower selected_tasks)
       (sorted (dict_keys selected_tasks)).

(** The document that the inputs determine: one-inch margins, the
    sections in their order, the footer caption. *)
Definition expected_document (unicode_lower unicode_upper : pystr → pystr)
    (project_info : ProjectInfo) (client_info : ClientInfo)
    (selected_tasks : dict SelectedTask) : Document :=
  mkDocument
    (title_paragraphs (upper unicode_upper (pi_title project_info))
       (pi_ipo_number project_info)
     ++ opening_paragraphs (ci_name client_info)
          (ci_master_agreement_date client_info)
     ++ identification_paragraphs (pi_name project_info)
          (pi_name_line2 project_info) (pi_project_manager project_info)
          (pi_project_number project_info)
     ++ understanding_paragraphs (str "Overall Project Understanding:")
          (pi_overall_understanding project_info)
     ++ understanding_paragraphs (str "Lot Specific Project Understanding:")
          (pi_lot_understanding project_info)
     ++ scope_paragraphs unicode_lower selected_tasks)
    (Some 914400%Z) (Some 914400%Z) (Some 914400%Z) (Some 914400%Z)
    [footer_paragraph].

(** The entries of [example_tasks], inserted in the other order. *)
Definition example_tasks_reordered : dict SelectedTask :=
  [(str "110", mkSelectedTask (str "Civil Engineering Design") 40000
                 (str "Hourly, Not-to-Exceed"));
   (str "210", mkSelectedTask (str "Meetings and Coordination") 20000
                 (str "Hourly, Not-to-Exceed"))].

(** * Properties *)

(** ** Strings *)

Lemma startswith_spec (s p : pystr) :
  startswith s p = true ↔ ∃ post, s = p ++ post.
Proof.
  revert s. induction p as [|c p IH]; intros s; simpl.
  - split; [intros _; by exists s | done].
  - destruct s as [|d s].
    + split; [done | intros [post ?]; done].
    + rewrite andb_true_iff, bool_decide_eq_true, IH. split.
      * intros [-> [post ->]]. by exists post.
      * intros [post [= -> ->]]. split; [done | by exists post].
Qed.

Lemma startswith_app (p s : pystr) : startswith (p ++ s) p = true.
Proof. apply startswith_spec. by exists s. Qed.

Lemma endswith_spec (s p : pystr) :
  endswith s p = true ↔ ∃ pre, s = pre ++ p.
Proof.
  unfold endswith. rewrite startswith_spec. split.
  - intros [post H]. exists (reverse post).
    apply (inj reverse). by rewrite reverse_app, reverse_involutive.
  - intros [pre ->]. exists (reverse pre). by rewrite reverse_app.
Qed.

Lemma str_in_spec (sub s : pystr) : str_in sub s = true ↔ occurs_in sub s.
Proof.
  unfold occurs_in. induction s as [|c s IH]; simpl.
  - rewrite startswith_spec. split.
    + intros [post H]. symmetry in H. apply app_eq_nil in H as [-> ->].
      by exists [], [].
    + intros (pre & post & H). symmetry in H.
      apply app_eq_nil in H as [-> H]. apply app_eq_nil in H as [-> ->].
      by exists [].
  - rewrite orb_true_iff, IH, startswith_spec. split.
    + intros [[post ->] | (pre & post & ->)].
      * by exists [], post.
      * by exists (c :: pre), post.
    + intros ([|c' pre] & post & H).
      * left. by exists post.
      * injection H as -> ->. right. by exists pre, post.
Qed.

Lemma str_in_false (sub s : pystr) : str_in sub s = false ↔ ¬ occurs_in sub s.
Proof. rewrite <- str_in_spec. by destruct (str_in sub s). Qed.

(** *** [replace] *)

Lemma replace_from_skip (old new : pystr) (skipped rest : pystr) :
  replace_from old new (length skipped) (skipped ++ rest)
  = replace_from old new 0 rest.
Proof. induction skipped as [|c k IH]; simpl; [done | by rewrite IH]. Qed.

Lemma replace_hit (old new s : pystr) :
  old ≠ [] → replace (old ++ s) old new = new ++ replace s old new.
Proof.
  destruct old as [|c old]; [done |]. intros _.
  unfold replace. change (replace_from (c :: old) new 0 ((c :: old) ++ s))
    with (if startswith ((c :: old) ++ s) (c :: old)
          then new ++ replace_from (c :: old) new (length old) (old ++ s)
          else c :: replace_from (c :: old) new 0 (old ++ s)).
  by rewrite startswith_app, replace_from_skip.
Qed.

Lemma replace_keep (c : N) (old new s : pystr) :
  old ≠ [] → startswith (c :: s) old = false →
  replace (c :: s) old new = c :: replace s old new.
Proof.
  intros Hne Hno. unfold replace. destruct old as [|o old]; [done |].
  simpl replace_from. simpl in Hno. by rewrite Hno.
Qed.

Lemma replace_nil (old new : pystr) : old ≠ [] → replace [] old new = [].
Proof. by destruct old. Qed.

(** [replace] with the empty string removes the occurrences. *)
Lemma replace_removes_all (old s : pystr) :
  old ≠ [] → removes_all old s (replace s old []).
Proof.
  intros Hne. remember (length s) as n eqn:Hn. revert s Hn.
  induction n as [n IH] using lt_wf_ind. intros s ->.
  destruct s as [|c s']; [rewrite replace_nil by done; constructor |].
  destruct (startswith (c :: s') old) eqn:Hs.
  - apply startswith_spec in Hs as [post Hs]. rewrite Hs.
    rewrite replace_hit by done. constructor.
    apply (IH (length post)); [| done].
    rewrite Hs, length_app. destruct old; [done | simpl; lia].
  - rewrite replace_keep by done. constructor; [done |].
    apply (IH (length s')); [simpl; lia | done].
Qed.

Lemma removes_all_functional (old s r1 r2 : pystr) :
  old ≠ [] → removes_all old s r1 → removes_all old s r2 → r1 = r2.
Proof.
  intros Hne H1. revert r2.
  induction H1 as [| s r H1 IH | c s r Hno H1 IH]; intros r2 H2.
  - inversion H2 as [| s2 r' H2' Heq | ]; [done |].
    destruct old; [done | discriminate Heq].
  - remember (old ++ s) as t eqn:Ht.
    destruct H2 as [| s2 r' H2' | c s2 r' Hno H2'].
    + destruct old; [done | discriminate Ht].
    + apply app_inv_head in Ht as ->. by apply IH.
    + rewrite Ht, startswith_app in Hno. done.
  - remember (c :: s) as t eqn:Ht.
    destruct H2 as [| s2 r' H2' | c2 s2 r' Hno2 H2'].
    + done.
    + by rewrite startswith_app in Hno.
    + injection Ht as -> ->. f_equal. by apply IH.
Qed.

Lemma replace_no_occurrence (old new s : pystr) :
  old ≠ [] → ¬ occurs_in old s → replace s old new = s.
Proof.
  intros Hne. induction s as [|c s IH]; intros Hno.
  - by apply replace_nil.
  - rewrite replace_keep; [f_equal; apply IH | done |].
    + intros (pre & post & ->). apply Hno. by exists (c :: pre), post.
    + destruct (startswith (c :: s) old) eqn:Hs; [| done].
      apply startswith_spec in Hs as [post Hs]. destruct Hno.
      exists [], post. by rewrite Hs.
Qed.

(** *** The order of strings and [sorted] *)

Lemma str_compare_refl (a : pystr) : str_compare a a = Eq.
Proof. induction a as [|x a IH]; simpl; [done | by rewrite N.compare_refl]. Qed.

Lemma str_compare_eq (a b : pystr) : str_compare a b = Eq → a = b.
Proof.
  revert b. induction a as [|x a IH]; intros [|y b]; simpl; try done.
  destruct (x ?= y)%N eqn:Hxy; try done.
  apply N.compare_eq in Hxy as ->. intros H. f_equal. by apply IH.
Qed.

Lemma str_compare_antisym (a b : pystr) :
  str_compare b a = CompOpp (str_compare a b).
Proof.
  revert b. induction a as [|x a IH]; intros [|y b]; simpl; try done.
  rewrite (N.compare_antisym x y). destruct (x ?= y)%N; simpl; [apply IH | done..].
Qed.

Lemma str_lt_trans (a b c : pystr) : str_lt a b → str_lt b c → str_lt a c.
Proof.
  unfold str_lt. revert b c.
  induction a as [|x a IH]; intros [|y b] [|z c]; simpl; try done.
  destruct (x ?= y)%N eqn:Hxy; try done.
  - apply N.compare_eq in Hxy as ->. destruct (y ?= z)%N; try done. apply IH.
  - destruct (y ?= z)%N eqn:Hyz; try done.
    + apply N.compare_eq in Hyz as ->. by rewrite Hxy.
    + intros _ _. by rewrite (N.lt_trans x y z Hxy Hyz).
Qed.

Lemma str_le_lt_eq (a b : pystr) : str_le a b ↔ str_lt a b ∨ a = b.
Proof.
  unfold str_le, str_lt. split.
  - destruct (str_compare a b) eqn:H; [| by left | done].
    right. by apply str_compare_eq.
  - intros [-> | ->]; [done | by rewrite str_compare_refl].
Qed.

Lemma str_lt_irrefl (a : pystr) : ¬ str_lt a a.
Proof. unfold str_lt. by rewrite str_compare_refl. Qed.

Local Instance str_le_trans : Transitive str_le.
Proof.
  intros a b c. rewrite !str_le_lt_eq.
  intros [Hab | ->] [Hbc | ->]; eauto using str_lt_trans.
Qed.

Local Instance str_le_total : Total str_le.
Proof.
  intros a b. unfold str_le. rewrite (str_compare_antisym a b).
  destruct (str_compare a b); simpl; [by left | by left | by right].
Qed.

Local Instance str_le_antisym : AntiSymm (=) str_le.
Proof.
  intros a b. unfold str_le. rewrite (str_compare_antisym a b).
  destruct (str_compare a b) eqn:H; simpl; try done.
  intros _ _. by apply str_compare_eq.
Qed.

Lemma sorted_Permutation (l : list pystr) : sorted l ≡ₚ l.
Proof. apply merge_sort_Permutation. Qed.

Lemma sorted_Sorted (l : list pystr) : Sorted str_le (sorted l).
Proof. apply Sorted_merge_sort, _. Qed.

(** The result of [sorted] does not depend on the order of its argument. *)
Lemma sorted_Permutation_eq (l1 l2 : list pystr) :
  l1 ≡ₚ l2 → sorted l1 = sorted l2.
Proof.
  intros H. apply (Sorted_unique str_le); [apply sorted_Sorted.. |].
  by rewrite !sorted_Permutation.
Qed.

(** Without repeated elements the result ascends strictly. *)
Lemma sorted_strict (l : list pystr) :
  NoDup l → StronglySorted str_lt (sorted l).
Proof.
  intros Hnd. rewrite <- (sorted_Permutation l) in Hnd.
  pose proof (Sorted_StronglySorted _ _ (sorted_Sorted l)) as Hs.
  induction Hs as [|x ks Hs IH Hall]; [constructor |].
  apply NoDup_cons in Hnd as [Hx Hnd]. constructor; [by apply IH |].
  rewrite Forall_forall in Hall |- *. intros y Hy.
  destruct (proj1 (str_le_lt_eq x y) (Hall y Hy)) as [? | ->]; done.
Qed.

(** ** Dictionaries *)

Lemma dict_get_Some_elem {V} (d : dict V) (k : pystr) (v : V) :
  dict_get d k = Some v → (k, v) ∈ d.
Proof.
  induction d as [|[k' v'] d IH]; simpl; [done |].
  case_decide as Hk.
  - intros [= ->]. subst. left.
  - intros H. right. by apply IH.
Qed.

Lemma dict_get_elem {V} (d : dict V) (k : pystr) (v : V) :
  NoDup (dict_keys d) → (k, v) ∈ d → dict_get d k = Some v.
Proof.
  unfold dict_keys. induction d as [|[k' v'] d IH]; simpl; [by inversion 2 |].
  intros [Hk Hnd]%NoDup_cons Hin. apply elem_of_cons in Hin as [[= <- <-] | Hin].
  - by rewrite decide_True.
  - rewrite decide_False; [by apply IH |].
    intros ->. apply Hk. apply list_elem_of_fmap. by exists (k, v).
Qed.

Lemma dict_get_is_Some {V} (d : dict V) (k : pystr) :
  is_Some (dict_get d k) ↔ k ∈ dict_keys d.
Proof.
  unfold dict_keys. induction d as [|[k' v'] d IH]; simpl.
  - split; [by intros [? ?] | by inversion 1].
  - rewrite elem_of_cons. case_decide as Hk.
    + split; [by left | by eexists].
    + rewrite IH. split; [by right | by intros [-> | ?]].
Qed.

(** Lookup does not depend on the insertion order. *)
Lemma dict_get_Permutation {V} (d d' : dict V) (k : pystr) :
  NoDup (dict_keys d) → d ≡ₚ d' → dict_get d k = dict_get d' k.
Proof.
  intros Hnd Hp.
  assert (NoDup (dict_keys d')) as Hnd'
    by (unfold dict_keys in *; by rewrite <- Hp).
  destruct (dict_get d k) as [v|] eqn:Hg.
  - symmetry. apply dict_get_elem; [done |].
    rewrite <- Hp. by apply dict_get_Some_elem.
  - destruct (dict_get d' k) as [v|] eqn:Hg'; [| done].
    apply dict_get_Some_elem in Hg'. rewrite <- Hp in Hg'.
    apply dict_get_elem in Hg'; [congruence | done].
Qed.

Lemma dict_get_set {V} (d : dict V) (k k' : pystr) (v : V) :
  dict_get (dict_set d k v) k'
  = if decide (k = k') then Some v else dict_get d k'.
Proof.
  induction d as [|[k0 v0] d IH]; simpl.
  - done.
  - destruct (decide (k0 = k)) as [-> | Hne]; simpl.
    + by case_decide.
    + rewrite IH. repeat case_decide; congruence.
Qed.

(** ** The paragraphs each builder appends *)

Lemma alter_snoc {A} (f : A → A) (l : list A) (x : A) :
  alter f (length l) (l ++ [x]) = l ++ [f x].
Proof. rewrite alter_app_r_alt by lia. by rewrite Nat.sub_diag. Qed.

Lemma lookup_snoc {A} (l : list A) (x : A) : (l ++ [x]) !! length l = Some x.
Proof. by apply list_lookup_middle. Qed.

Lemma append_paragraphs_nil (d : Document) : append_paragraphs d [] = d.
Proof. destruct d. unfold append_paragraphs. simpl. by rewrite app_nil_r. Qed.

Lemma append_paragraphs_app (d : Document) (ps qs : list Paragraph) :
  append_paragraphs (append_paragraphs d ps) qs = append_paragraphs d (ps ++ qs).
Proof. unfold append_paragraphs. simpl. by rewrite (assoc_L (++)). Qed.

(** *** One step of a builder

    The builders only write to the paragraph they added last and to the
    run they added last to it, so the effect of each primitive is stated
    on a document whose body ends with that paragraph. *)

Lemma bind_run {A B} (m : M A) (k : A → M B) d a d' r :
  m d = (Return a, d') → k a d' = r → bind m k d = r.
Proof. unfold bind. by intros -> <-. Qed.

Lemma ret_run {A} (a : A) d : ret a d = (Return a, d).
Proof. done. Qed.

Section Primitives.
Variable ps : list Paragraph.
Variables tm bm lm rm : option Z.
Variable fp : list Paragraph.

Lemma add_paragraph_run :
  add_paragraph (mkDocument ps tm bm lm rm fp)
  = (Return (BodyPara (length ps)),
     mkDocument
       (ps ++ [mkParagraph [] None (mkParagraphFormat None None [])])
       tm bm lm rm fp).
Proof. done. Qed.

Lemma add_run_last rs a pf text :
  add_run (BodyPara (length ps)) text
    (mkDocument (ps ++ [mkParagraph rs a pf]) tm bm lm rm fp)
  = (Return (mkRunRef (BodyPara (length ps)) (length rs)),
     mkDocument
       (ps ++ [mkParagraph
                 (rs ++ [mkRun text (mkFont None None None None None)]) a pf])
       tm bm lm rm fp).
Proof. unfold add_run. simpl. by rewrite lookup_snoc, alter_snoc. Qed.

Lemma alter_run_last (f : Run → Run) rs r a pf :
  alter_run f (mkRunRef (BodyPara (length ps)) (length rs))
    (mkDocument (ps ++ [mkParagraph (rs ++ [r]) a pf]) tm bm lm rm fp)
  = mkDocument (ps ++ [mkParagraph (rs ++ [f r]) a pf]) tm bm lm rm fp.
Proof.
  unfold alter_run. simpl. rewrite alter_snoc. unfold with_runs. simpl.
  by rewrite alter_snoc.
Qed.

Lemma set_font_name_last rs t n s b i u a pf v :
  set_font_name (mkRunRef (BodyPara (length ps)) (length rs)) v
    (mkDocument (ps ++ [mkParagraph (rs ++ [mkRun t (mkFont n s b i u)]) a pf])
       tm bm lm rm fp)
  = (Return (),
     mkDocument
       (ps ++ [mkParagraph (rs ++ [mkRun t (mkFont (Some v) s b i u)]) a pf])
       tm bm lm rm fp).
Proof. unfold set_font_name, modify. by rewrite alter_run_last. Qed.

Lemma set_font_size_last rs t n s b i u a pf v :
  set_font_size (mkRunRef (BodyPara (length ps)) (length rs)) v
    (mkDocument (ps ++ [mkParagraph (rs ++ [mkRun t (mkFont n s b i u)]) a pf])
       tm bm lm rm fp)
  = (Return (),
     mkDocument
       (ps ++ [mkParagraph (rs ++ [mkRun t (mkFont n (Some v) b i u)]) a pf])
       tm bm lm rm fp).
Proof. unfold set_font_size, modify. by rewrite alter_run_last. Qed.

Lemma set_font_bold_last rs t n s b i u a pf v :
  set_font_bold (mkRunRef (BodyPara (length ps)) (length rs)) v
    (mkDocument (ps ++ [mkParagraph (rs ++ [mkRun t (mkFont n s b i u)]) a pf])
       tm bm lm rm fp)
  = (Return (),
     mkDocument
       (ps ++ [mkParagraph (rs ++ [mkRun t (mkFont n s (Some v) i u)]) a pf])
       tm bm lm rm fp).
Proof. unfold set_font_bold, modify. by rewrite alter_run_last. Qed.

Lemma set_font_italic_last rs t n s b i u a pf v :
  set_font_italic (mkRunRef (BodyPara (length ps)) (length rs)) v
    (mkDocument (ps ++ [mkParagraph (rs ++ [mkRun t (mkFont n s b i u)]) a pf])
       tm bm lm rm fp)
  = (Return (),
     mkDocument
       (ps ++ [mkParagraph (rs ++ [mkRun t (mkFont n s b (Some v) u)]) a pf])
       tm bm lm rm fp).
Proof. unfold set_font_italic, modify. by rewrite alter_run_last. Qed.

Lemma set_font_underline_last rs t n s b i u a pf v :
  set_font_underline (mkRunRef (BodyPara (length ps)) (length rs)) v
    (mkDocument (ps ++ [mkParagraph (rs ++ [mkRun t (mkFont n s b i u)]) a pf])
       tm bm lm rm fp)
  = (Return (),
     mkDocument
       (ps ++ [mkParagraph (rs ++ [mkRun t (mkFont n s b i (Some v))]) a pf])
       tm bm lm rm fp).
Proof. unfold set_font_underline, modify. by rewrite alter_run_last. Qed.

Lemma set_alignment_last rs a pf v :
  set_alignment (BodyPara (length ps)) v
    (mkDocument (ps ++ [mkParagraph rs a pf]) tm bm lm rm fp)
  = (Return (), mkDocument (ps ++ [mkParagraph rs (Some v) pf]) tm bm lm rm fp).
Proof. unfold set_alignment, modify. simpl. by rewrite alter_snoc. Qed.

Lemma set_space_after_last rs a sa ls ts v :
  set_space_after (BodyPara (length ps)) v
    (mkDocument (ps ++ [mkParagraph rs a (mkParagraphFormat sa ls ts)])
       tm bm lm rm fp)
  = (Return (),
     mkDocument (ps ++ [mkParagraph rs a (mkParagraphFormat (Some v) ls ts)])
       tm bm lm rm fp).
Proof. unfold set_space_after, modify. simpl. by rewrite alter_snoc. Qed.

Lemma set_line_spacing_last rs a sa ls ts v :
  set_line_spacing (BodyPara (length ps)) v
    (mkDocument (ps ++ [mkParagraph rs a (mkParagraphFormat sa ls ts)])
       tm bm lm rm fp)
  = (Return (),
     mkDocument (ps ++ [mkParagraph rs a (mkParagraphFormat sa (Some v) ts)])
       tm bm lm rm fp).
Proof. unfold set_line_spacing, modify. simpl. by rewrite alter_snoc. Qed.

Lemma add_tab_stop_last rs a sa ls ts pos align :
  add_tab_stop (BodyPara (length ps)) pos align
    (mkDocument (ps ++ [mkParagraph rs a (mkParagraphFormat sa ls ts)])
       tm bm lm rm fp)
  = (Return (),
     mkDocument
       (ps ++ [mkParagraph rs a
                 (mkParagraphFormat sa ls (ts ++ [(pos, align)]))])
       tm bm lm rm fp).
Proof. unfold add_tab_stop, modify. simpl. by rewrite alter_snoc. Qed.
End Primitives.

(** Runs a builder statement by statement; a statement that is not a
    primitive (a loop) is left as a goal. *)
Ltac run_to_end :=
  cbv beta iota zeta delta [negb];
  lazymatch goal with
  | |- bind _ _ _ = _ => eapply bind_run; [run_to_end | run_to_end]
  | |- _ =>
      first [ apply add_paragraph_run | apply add_run_last
            | apply set_font_name_last | apply set_font_size_last
            | apply set_font_bold_last | apply set_font_italic_last
            | apply set_font_underline_last | apply set_alignment_last
            | apply set_space_after_last | apply set_line_spacing_last
            | apply add_tab_stop_last | apply ret_run | idtac ]
  end.

(** Brings the body of the resulting document into the form [ps ++ l]. *)
Ltac normalise_body :=
  unfold append_paragraphs;
  cbn [paragraphs top_margin bottom_margin left_margin right_margin
       footer_paragraphs];
  rewrite <- ?(assoc_L (++)); cbn [app].

(** Runs a straight-line builder on a document with any body. *)
Ltac run_builder := etrans; [run_to_end |]; normalise_body.

(** A loop whose body appends paragraphs appends those of every round. *)
Lemma for_each_run {A} (l : list A) (body : A → M unit)
    (f : A → list Paragraph) :
  (∀ x d, body x d = (Return (), append_paragraphs d (f x))) →
  ∀ d, for_each l body d = (Return (), append_paragraphs d (flat_map f l)).
Proof.
  intros Hbody. induction l as [|x l IH]; intros d; simpl.
  - by rewrite append_paragraphs_nil.
  - unfold bind. by rewrite Hbody, IH, append_paragraphs_app.
Qed.

Lemma add_title_section_run uu project_name ipo_number d :
  add_title_section uu project_name ipo_number d
  = (Return (), append_paragraphs d
       [spaced_paragraph
          [calibri_run (upper uu project_name) (Pt 12) (Some true) None None]
          (Some WD_ALIGN_PARAGRAPH.CENTER) [];
        spaced_paragraph
          [calibri_run (str "INDIVIDUAL PROJECT ORDER NUMBER " ++ ipo_number)
             (Pt 10) (Some true) None None]
          (Some WD_ALIGN_PARAGRAPH.CENTER) [];
        empty_paragraph; empty_paragraph]).
Proof. destruct d as [ps tm bm lm rm fp]. unfold add_title_section. by run_builder. Qed.

Lemma add_opening_paragraph_run client_name master_agreement_date d :
  add_opening_paragraph client_name master_agreement_date d
  = (Return (), append_paragraphs d
       [body_paragraph
          (str "Describing a specific agreement between Kimley-Horn and Associates, Inc. "
           ++ str "(the Consultant), and " ++ client_name
           ++ str " (the Client) in accordance with the terms of the "
           ++ str "Master Agreement for Continuing Professional Services dated "
           ++ master_agreement_date ++ str ", "
           ++ str "which is incorporated herein by reference.");
        empty_paragraph]).
Proof. destruct d as [ps tm bm lm rm fp]. unfold add_opening_paragraph. by run_builder. Qed.

Lemma add_project_identification_run project_name project_name_line2
    project_manager project_number d :
  add_project_identification project_name project_name_line2 project_manager
    project_number d
  = (Return (), append_paragraphs d
       ([heading_paragraph (str "Identification of Project:")
           WD_ALIGN_PARAGRAPH.LEFT;
         empty_paragraph;
         label_paragraph (str "Project Name:" ++ [9%N]) project_name]
        ++ (if truthy project_name_line2
            then [name_line2_paragraph (default [] project_name_line2)]
            else [])
        ++ [label_paragraph (str "KH Project Manager:" ++ [9%N])
              project_manager;
            label_paragraph (str "Project Number:" ++ [9%N]) project_number;
            empty_paragraph])).
Proof.
  destruct d as [ps tm bm lm rm fp]. unfold add_project_identification.
  destruct (truthy project_name_line2); by run_builder.
Qed.

Lemma add_section_with_heading_run heading_text content_paragraphs d :
  add_section_with_heading heading_text content_paragraphs d
  = (Return (), append_paragraphs d
       (heading_paragraph heading_text WD_ALIGN_PARAGRAPH.LEFT
        :: empty_paragraph
        :: flat_map (λ content, [body_paragraph content; empty_paragraph])
             content_paragraphs)).
Proof.
  destruct d as [ps tm bm lm rm fp]. unfold add_section_with_heading.
  etrans; [run_to_end |].
  - apply (for_each_run _ _
             (λ content, [body_paragraph content; empty_paragraph])).
    clear. intros content [ps tm bm lm rm fp]. by run_builder.
  - by normalise_body.
Qed.

Lemma add_description_run ul desc d :
  add_description ul desc d
  = (Return (), append_paragraphs d (description_paragraphs ul desc)).
Proof.
  destruct d as [ps tm bm lm rm fp].
  unfold add_description, description_paragraphs.
  destruct (is_subsection ul desc); by run_builder.
Qed.

Lemma for_each_add_description_run ul descriptions d :
  for_each descriptions (add_description ul) d
  = (Return (), append_paragraphs d
       (flat_map (description_paragraphs ul) descriptions)).
Proof. apply for_each_run. intros. apply add_description_run. Qed.

Lemma add_task_run ul selected_tasks task_num task descriptions d :
  dict_get selected_tasks task_num = Some task →
  dict_get TASK_DESCRIPTIONS task_num = Some descriptions →
  add_task ul selected_tasks task_num d
  = (Return (), append_paragraphs d
       (task_paragraphs ul task_num task descriptions)).
Proof.
  intros Ht Hd. unfold add_task. rewrite Ht, Hd.
  destruct d as [ps tm bm lm rm fp].
  etrans; [run_to_end; apply for_each_add_description_run |].
  by normalise_body.
Qed.

(** An unknown task code stops the loop body before anything is added. *)
Lemma add_task_unknown ul selected_tasks task_num task d :
  dict_get selected_tasks task_num = Some task →
  dict_get TASK_DESCRIPTIONS task_num = None →
  add_task ul selected_tasks task_num d = (Raise (KeyError task_num), d).
Proof. intros Ht Hd. unfold add_task. by rewrite Ht, Hd. Qed.

(** The paragraphs of the tasks [task_nums], in that order. *)
Lemma for_each_add_task_run ul selected_tasks task_nums d :
  Forall (λ k, is_Some (dict_get selected_tasks k)
               ∧ is_Some (dict_get TASK_DESCRIPTIONS k)) task_nums →
  for_each task_nums (add_task ul selected_tasks) d
  = (Return (), append_paragraphs d
       (flat_map (λ k, emitted (add_task ul selected_tasks k)) task_nums)).
Proof.
  intros Hall. revert d.
  induction Hall as [|k l [[t Ht] [ds Hd]] _ IH]; intros d; simpl.
  - by rewrite append_paragraphs_nil.
  - unfold bind, emitted.
    rewrite !(add_task_run _ _ _ _ _ _ Ht Hd), IH, append_paragraphs_app.
    done.
Qed.

(** The loop stops at the first unknown task code. *)
Lemma for_each_add_task_unknown ul selected_tasks task_nums :
  Forall (λ k, is_Some (dict_get selected_tasks k)) task_nums →
  Exists (λ k, dict_get TASK_DESCRIPTIONS k = None) task_nums →
  ∀ d, ∃ k, k ∈ task_nums ∧ dict_get TASK_DESCRIPTIONS k = None
            ∧ (for_each task_nums (add_task ul selected_tasks) d).1
              = Raise (KeyError k).
Proof.
  induction task_nums as [|k l IH]; intros Hsel Hex d; [by inversion Hex |].
  apply Forall_cons in Hsel as [[t Ht] Hsel]. simpl. unfold bind.
  destruct (dict_get TASK_DESCRIPTIONS k) as [ds|] eqn:Hd.
  - rewrite (add_task_run _ _ _ _ _ _ Ht Hd).
    apply Exists_cons in Hex as [Hk | Hex]; [congruence |].
    destruct (IH Hsel Hex (append_paragraphs d (task_paragraphs ul k t ds)))
      as (k' & Hin & Hnone & Hr).
    exists k'. split; [by right | done].
  - rewrite (add_task_unknown _ _ _ _ _ Ht Hd).
    exists k. split; [by left | done].
Qed.

Lemma sorted_keys_selected {V} (d : dict V) :
  Forall (λ k, is_Some (dict_get d k)) (sorted (dict_keys d)).
Proof.
  apply Forall_forall. intros k Hk. apply dict_get_is_Some.
  by rewrite <- (sorted_Permutation (dict_keys d)).
Qed.

(** The section heading, a blank line, then the loop over the tasks. *)
Lemma add_scope_of_services_loop ul selected_tasks d :
  add_scope_of_services ul selected_tasks d
  = for_each (sorted (dict_keys selected_tasks)) (add_task ul selected_tasks)
      (append_paragraphs d
         [heading_paragraph (str "Specific scope of basic Services:")
            WD_ALIGN_PARAGRAPH.LEFT;
          empty_paragraph]).
Proof.
  destruct d as [ps tm bm lm rm fp]. unfold add_scope_of_services.
  etrans; [run_to_end; reflexivity |]. by normalise_body.
Qed.

Lemma add_scope_of_services_run ul selected_tasks d :
  tasks_known selected_tasks →
  add_scope_of_services ul selected_tasks d
  = (Return (), append_paragraphs d
       (heading_paragraph (str "Specific scope of basic Services:")
          WD_ALIGN_PARAGRAPH.LEFT
        :: empty_paragraph
        :: flat_map (λ k, emitted (add_task ul selected_tasks k))
             (sorted (dict_keys selected_tasks)))).
Proof.
  intros Hknown.
  rewrite add_scope_of_services_loop, for_each_add_task_run.
  - by rewrite append_paragraphs_app.
  - pose proof (sorted_keys_selected selected_tasks) as Hsel.
    rewrite Forall_forall in Hsel |- *. intros k Hk. split; [by apply Hsel |].
    apply Hknown. by rewrite <- (sorted_Permutation (dict_keys selected_tasks)).
Qed.

Lemma add_scope_of_services_unknown ul selected_tasks d :
  ¬ tasks_known selected_tasks →
  ∃ k, k ∈ dict_keys selected_tasks ∧ dict_get TASK_DESCRIPTIONS k = None
       ∧ (add_scope_of_services ul selected_tasks d).1 = Raise (KeyError k).
Proof.
  intros Hunknown. rewrite add_scope_of_services_loop.
  match goal with |- context [for_each _ _ ?d'] =>
    destruct (for_each_add_task_unknown ul selected_tasks
                (sorted (dict_keys selected_tasks))
                (sorted_keys_selected selected_tasks)) with (d := d')
      as (k & Hin & Hnone & Hr)
  end.
  - destruct (decide (Exists (λ k, dict_get TASK_DESCRIPTIONS k = None)
                        (sorted (dict_keys selected_tasks)))) as [? | Hno];
      [done |].
    destruct Hunknown. intros k Hk.
    apply not_Exists_Forall in Hno; [| intros ?; apply _].
    rewrite Forall_forall in Hno. specialize (Hno k).
    rewrite sorted_Permutation in Hno. specialize (Hno Hk).
    destruct (dict_get TASK_DESCRIPTIONS k) eqn:Hd; [by eexists |].
    by destruct Hno.
  - exists k. rewrite sorted_Permutation in Hin. done.
Qed.

Lemma emitted_run (m : M unit) (ps : list Paragraph) :
  m new_Document = (Return (), append_paragraphs new_Document ps) →
  emitted m = ps.
Proof. unfold emitted. by intros ->. Qed.

Lemma add_simple_footer_run footer_text d p rest :
  footer_paragraphs d = p :: rest →
  add_simple_footer footer_text d
  = (Return (),
     mkDocument (paragraphs d) (top_margin d) (bottom_margin d)
       (left_margin d) (right_margin d)
       (mkParagraph [calibri_run footer_text (Pt 9) None None None]
          (Some WD_ALIGN_PARAGRAPH.LEFT) (paragraph_format p) :: rest)).
Proof.
  destruct d as [ps tm bm lm rm fp]. simpl. intros ->.
  unfold add_simple_footer, bind, footer_paragraph_0, set_text, runs_0,
    set_font_name, set_font_size, set_alignment, modify, alter_run,
    alter_para, get_para.
  reflexivity.
Qed.

(** The sections of the document, in the order of their builders. *)
Lemma build_document_run ul uu project_info client_info selected_tasks :
  tasks_known selected_tasks →
  build_document ul uu project_info client_info selected_tasks new_Document
  = (Return (),
     mkDocument
       (emitted (add_title_section uu (pi_title project_info)
                   (pi_ipo_number project_info))
        ++ emitted (add_opening_paragraph (ci_name client_info)
                      (ci_master_agreement_date client_info))
        ++ emitted (add_project_identification (pi_name project_info)
                      (pi_name_line2 project_info)
                      (pi_project_manager project_info)
                      (pi_project_number project_info))
        ++ (if truthy (pi_overall_understanding project_info)
            then emitted (add_section_with_heading
                            (str "Overall Project Understanding:")
                            [default [] (pi_overall_understanding project_info)])
            else [])
        ++ (if truthy (pi_lot_understanding project_info)
            then emitted (add_section_with_heading
                            (str "Lot Specific Project Understanding:")
                            [default [] (pi_lot_understanding project_info)])
            else [])
        ++ emitted (add_scope_of_services ul selected_tasks))
       (Some (Inches 1)) (Some (Inches 1)) (Some (Inches 1)) (Some (Inches 1))
       [mkParagraph [calibri_run (str "rev 07/2024") (Pt 9) None None None]
          (Some WD_ALIGN_PARAGRAPH.LEFT) (mkParagraphFormat None None [])]).
Proof.
  intros Hknown.
  rewrite (emitted_run _ _ (add_title_section_run _ _ _ _)).
  rewrite (emitted_run _ _ (add_opening_paragraph_run _ _ _)).
  rewrite (emitted_run _ _ (add_project_identification_run _ _ _ _ _)).
  rewrite !(emitted_run _ _ (add_section_with_heading_run _ _ _)).
  rewrite (emitted_run _ _ (add_scope_of_services_run _ _ _ Hknown)).
  unfold build_document, bind, set_top_margin, set_bottom_margin,
    set_left_margin, set_right_margin, modify.
  rewrite add_title_section_run, add_opening_paragraph_run,
    add_project_identification_run.
  destruct (truthy (pi_overall_understanding project_info));
    destruct (truthy (pi_lot_understanding project_info));
    unfold ret; rewrite ?add_section_with_heading_run,
      (add_scope_of_services_run _ _ _ Hknown), !append_paragraphs_app;
    by erewrite add_simple_footer_run by reflexivity.
Qed.

(** With an unknown task code the builders raise [KeyError]. *)
Lemma build_document_unknown ul uu project_info client_info selected_tasks :
  ¬ tasks_known selected_tasks →
  ∃ k, k ∈ dict_keys selected_tasks ∧ dict_get TASK_DESCRIPTIONS k = None
       ∧ (build_document ul uu project_info client_info selected_tasks
            new_Document).1 = Raise (KeyError k).
Proof.
  intros Hunknown.
  unfold build_document, bind, set_top_margin, set_bottom_margin,
    set_left_margin, set_right_margin, modify.
  rewrite add_title_section_run, add_opening_paragraph_run,
    add_project_identification_run.
  destruct (truthy (pi_overall_understanding project_info));
    destruct (truthy (pi_lot_understanding project_info));
    unfold ret; rewrite ?add_section_with_heading_run;
    match goal with |- context [add_scope_of_services _ _ ?d] =>
      destruct (add_scope_of_services_unknown ul selected_tasks d Hunknown)
        as (k & Hin & Hnone & Hr);
      exists k; split; [done | split; [done |]];
      destruct (add_scope_of_services ul selected_tasks d) as [[] ?];
      simpl in *; congruence
    end.
Qed.

(** ** Sub-heading classification *)

Lemma is_subsection_spec ul (desc : pystr) :
  is_subsection ul desc = true ↔ caption_condition ul desc.
Proof.
  unfold is_subsection, caption_condition.
  rewrite !andb_true_iff, bool_decide_eq_true, negb_true_iff.
  rewrite existsb_exists.
  rewrite <- not_true_iff_false, endswith_spec.
  split.
  - intros [[Hlen (kw & Hin & Hkw)] Hdot]. split; [done |]. split; [| done].
    exists kw. split; [by apply list_elem_of_In | by apply str_in_spec].
  - intros (Hlen & (kw & Hin & Hkw) & Hdot). split; [split |]; [done | | done].
    exists kw. split; [by apply list_elem_of_In | by apply str_in_spec].
Qed.

(** C1. A description fragment is rendered as an italic sub-heading, with
    no blank paragraph after it, exactly when it is shorter than 100
    characters, its lower-cased text contains one of the caption keywords
    and it does not end with a period; every other fragment is rendered as
    a normal justified paragraph followed by one blank paragraph. *)
Theorem fragment_rendering ul (desc : pystr) (d : Document) :
  (caption_condition ul desc
   ∧ add_description ul desc d
     = (Return (), append_paragraphs d [subheading_paragraph desc]))
  ∨ (¬ caption_condition ul desc
     ∧ add_description ul desc d
       = (Return (),
          append_paragraphs d [body_paragraph desc; empty_paragraph])).
Proof.
  rewrite add_description_run. unfold description_paragraphs.
  destruct (is_subsection ul desc) eqn:Hs.
  - left. split; [by apply is_subsection_spec | done].
  - right. split; [| done].
    rewrite <- is_subsection_spec. by rewrite Hs.
Qed.

(** ** Order of the tasks *)

Lemma for_each_ext {A} (l : list A) (body body' : A → M unit) d :
  (∀ x d, x ∈ l → body x d = body' x d) →
  for_each l body d = for_each l body' d.
Proof.
  revert d. induction l as [|x l IH]; intros d Hext; simpl; [done |].
  unfold bind. rewrite (Hext x d) by left.
  destruct (body' x d) as [[[]|e] d']; [| done].
  apply IH. intros y d0 Hy. apply Hext. by right.
Qed.

(** The loop body reads [selected_tasks] at [task_num] only. *)
Lemma add_task_ext ul (st st' : dict SelectedTask) task_num d :
  dict_get st task_num = dict_get st' task_num →
  add_task ul st task_num d = add_task ul st' task_num d.
Proof. intros H. unfold add_task. by rewrite H. Qed.

Lemma emitted_add_task ul (st : dict SelectedTask) task_num :
  is_Some (dict_get st task_num) →
  is_Some (dict_get TASK_DESCRIPTIONS task_num) →
  emitted (add_task ul st task_num) = selected_task_paragraphs ul st task_num.
Proof.
  intros [t Ht] [ds Hd]. unfold selected_task_paragraphs. rewrite Ht, Hd.
  apply emitted_run. by apply add_task_run.
Qed.

(** The section does not depend on the insertion order of the entries. *)
Lemma add_scope_of_services_Permutation ul (st st' : dict SelectedTask) d :
  NoDup (dict_keys st) → st' ≡ₚ st →
  add_scope_of_services ul st' d = add_scope_of_services ul st d.
Proof.
  intros Hnd Hp. rewrite !add_scope_of_services_loop.
  assert (dict_keys st' ≡ₚ dict_keys st) as Hkeys
    by (unfold dict_keys; by rewrite Hp).
  rewrite (sorted_Permutation_eq _ _ Hkeys).
  apply for_each_ext. intros k d0 _. apply add_task_ext.
  symmetry. by apply dict_get_Permutation.
Qed.

(** C2. When all selected task codes are in the catalog, the section
    renders the tasks in strictly ascending order of their codes, and two
    selections with the same entries, inserted in any order, give the same
    section. *)
Theorem scope_tasks_in_sorted_order ul (selected_tasks : dict SelectedTask)
    (d : Document) :
  tasks_known selected_tasks →
  NoDup (dict_keys selected_tasks) →
  ∃ task_nums,
    task_nums ≡ₚ dict_keys selected_tasks
    ∧ StronglySorted str_lt task_nums
    ∧ add_scope_of_services ul selected_tasks d
      = (Return (), append_paragraphs d
           (heading_paragraph (str "Specific scope of basic Services:")
              WD_ALIGN_PARAGRAPH.LEFT
            :: empty_paragraph
            :: flat_map (selected_task_paragraphs ul selected_tasks)
                 task_nums))
    ∧ ∀ selected_tasks',
        selected_tasks' ≡ₚ selected_tasks →
        add_scope_of_services ul selected_tasks' d
        = add_scope_of_services ul selected_tasks d.
Proof.
  intros Hknown Hnd. exists (sorted (dict_keys selected_tasks)).
  split; [apply sorted_Permutation |]. split; [by apply sorted_strict |].
  split; [| intros st' Hp; by apply add_scope_of_services_Permutation].
  rewrite (add_scope_of_services_run _ _ _ Hknown). do 4 f_equal.
  assert (Forall (λ k, emitted (add_task ul selected_tasks k)
                       = selected_task_paragraphs ul selected_tasks k)
            (sorted (dict_keys selected_tasks))) as Hall.
  { apply Forall_forall. intros k Hk. rewrite sorted_Permutation in Hk.
    apply emitted_add_task; [by apply dict_get_is_Some | by apply Hknown]. }
  induction Hall as [|k l Hk _ IH]; simpl; [done | by rewrite Hk, IH].
Qed.

Lemma tasks_known_Forall (selected_tasks : dict SelectedTask) :
  tasks_known selected_tasks
  ↔ Forall (λ k, is_Some (dict_get TASK_DESCRIPTIONS k))
      (dict_keys selected_tasks).
Proof. unfold tasks_known. by rewrite Forall_forall. Qed.

Lemma scope_tasks_in_sorted_order_witness :
  ∃ task_nums,
    task_nums ≡ₚ dict_keys example_tasks
    ∧ StronglySorted str_lt task_nums
    ∧ add_scope_of_services ascii_only example_tasks new_Document
      = (Return (), append_paragraphs new_Document
           (heading_paragraph (str "Specific scope of basic Services:")
              WD_ALIGN_PARAGRAPH.LEFT
            :: empty_paragraph
            :: flat_map (selected_task_paragraphs ascii_only example_tasks)
                 task_nums))
    ∧ ∀ selected_tasks',
        selected_tasks' ≡ₚ example_tasks →
        add_scope_of_services ascii_only selected_tasks' new_Document
        = add_scope_of_services ascii_only example_tasks new_Document.
Proof.
  apply (scope_tasks_in_sorted_order ascii_only example_tasks new_Document).
  - apply tasks_known_Forall.
    repeat constructor; eexists; vm_compute; reflexivity.
  - apply (bool_decide_unpack _). vm_compute. exact I.
Defined.

(** ** Assembly *)

Lemma generate_run ul uu project_info client_info selected_tasks
    output_path fs :
  tasks_known selected_tasks →
  generate_msa_ipo_document ul uu project_info client_info selected_tasks
    output_path fs
  = (Return output_path,
     dict_set fs output_path
       (build_document ul uu project_info client_info selected_tasks
          new_Document).2).
Proof.
  intros Hknown. unfold generate_msa_ipo_document.
  by rewrite (build_document_run _ _ _ _ _ Hknown).
Qed.

(** C3. When a selected task code is not in the catalog, the assembly
    raises [KeyError] for such a code, the document is not saved and
    nothing is returned. *)
Theorem unknown_task_rejected ul uu project_info client_info
    (selected_tasks : dict SelectedTask) (output_path : pystr)
    (fs : FileStore) :
  (∃ k, k ∈ dict_keys selected_tasks ∧ dict_get TASK_DESCRIPTIONS k = None) →
  ∃ k, k ∈ dict_keys selected_tasks
       ∧ dict_get TASK_DESCRIPTIONS k = None
       ∧ generate_msa_ipo_document ul uu project_info client_info
           selected_tasks output_path fs
         = (Raise (KeyError k), fs).
Proof.
  intros (k0 & Hin0 & Hnone0).
  destruct (build_document_unknown ul uu project_info client_info
              selected_tasks) as (k & Hin & Hnone & Hr).
  { intros Hknown. destruct (Hknown k0 Hin0) as [ds Hds]. congruence. }
  exists k. split; [done |]. split; [done |].
  unfold generate_msa_ipo_document.
  destruct (build_document _ _ _ _ _ _) as [r doc]. simpl in Hr. by subst r.
Qed.

Lemma unknown_task_rejected_witness :
  ∃ k, k ∈ dict_keys unknown_tasks
       ∧ dict_get TASK_DESCRIPTIONS k = None
       ∧ generate_msa_ipo_document ascii_only ascii_only example_project
           example_client unknown_tasks temp_path []
         = (Raise (KeyError k), []).
Proof.
  apply (unknown_task_rejected ascii_only ascii_only example_project
           example_client unknown_tasks temp_path []).
  exists (str "999"). split.
  - apply (bool_decide_unpack _). vm_compute. exact I.
  - vm_compute. reflexivity.
Defined.

Lemma emitted_add_scope_of_services ul (selected_tasks : dict SelectedTask) :
  tasks_known selected_tasks →
  emitted (add_scope_of_services ul selected_tasks)
  = scope_paragraphs ul selected_tasks.
Proof.
  intros Hknown.
  rewrite (emitted_run _ _ (add_scope_of_services_run _ _ _ Hknown)).
  unfold scope_paragraphs. do 2 f_equal.
  assert (Forall (λ k, emitted (add_task ul selected_tasks k)
                       = selected_task_paragraphs ul selected_tasks k)
            (sorted (dict_keys selected_tasks))) as Hall.
  { apply Forall_forall. intros k Hk. rewrite sorted_Permutation in Hk.
    apply emitted_add_task; [by apply dict_get_is_Some | by apply Hknown]. }
  induction Hall as [|k l Hk _ IH]; simpl; [done | by rewrite Hk, IH].
Qed.

Lemma understanding_section_paragraphs (heading_text : pystr)
    (text : option pystr) :
  (if truthy text
   then emitted (add_section_with_heading heading_text [default [] text])
   else [])
  = understanding_paragraphs heading_text text.
Proof.
  rewrite (emitted_run _ _ (add_section_with_heading_run _ _ _)).
  by destruct text as [[|c s]|].
Qed.

Lemma identification_block_paragraphs (project_name : pystr)
    (project_name_line2 : option pystr)
    (project_manager project_number : pystr) :
  emitted (add_project_identification project_name project_name_line2
             project_manager project_number)
  = identification_paragraphs project_name project_name_line2
      project_manager project_number.
Proof.
  rewrite (emitted_run _ _ (add_project_identification_run _ _ _ _ _)).
  by destruct project_name_line2 as [[|c s]|].
Qed.

(** For a selection within the catalog the builders leave the document
    that is written out in [expected_document]. *)
Lemma build_document_expected ul uu project_info client_info
    (selected_tasks : dict SelectedTask) :
  tasks_known selected_tasks →
  build_document ul uu project_info client_info selected_tasks new_Document
  = (Return (),
     expected_document ul uu project_info client_info selected_tasks).
Proof.
  intros Hknown. rewrite (build_document_run _ _ _ _ _ Hknown).
  rewrite !understanding_section_paragraphs, identification_block_paragraphs.
  rewrite (emitted_add_scope_of_services _ _ Hknown).
  rewrite (emitted_run _ _ (add_title_section_run _ _ _ _)).
  rewrite (emitted_run _ _ (add_opening_paragraph_run _ _ _)).
  reflexivity.
Qed.

(** C8. For a valid input the assembler sets the four margins to one inch
    and the body of the saved document is, in this order: the title block,
    the opening clause, the project identification, the overall-
    understanding section (present exactly when its text is a non-empty
    string), the lot-understanding section (likewise) and the scope of
    services; the footer holds the caption.  Each section is given by its
    paragraphs. *)
Theorem sections_in_fixed_order ul uu project_info client_info
    (selected_tasks : dict SelectedTask) (output_path : pystr)
    (fs : FileStore) :
  tasks_known selected_tasks →
  ∃ doc,
    generate_msa_ipo_document ul uu project_info client_info selected_tasks
      output_path fs
    = (Return output_path, dict_set fs output_path doc)
    ∧ top_margin doc = Some 914400%Z ∧ bottom_margin doc = Some 914400%Z
    ∧ left_margin doc = Some 914400%Z ∧ right_margin doc = Some 914400%Z
    ∧ paragraphs doc
      = title_paragraphs (upper uu (pi_title project_info))
          (pi_ipo_number project_info)
        ++ opening_paragraphs (ci_name client_info)
             (ci_master_agreement_date client_info)
        ++ identification_paragraphs (pi_name project_info)
             (pi_name_line2 project_info) (pi_project_manager project_info)
             (pi_project_number project_info)
        ++ match pi_overall_understanding project_info with
           | Some (c :: s) =>
               [heading_paragraph (str "Overall Project Understanding:")
                  WD_ALIGN_PARAGRAPH.LEFT;
                empty_paragraph; body_paragraph (c :: s); empty_paragraph]
           | Some [] | None => []
           end
        ++ match pi_lot_understanding project_info with
           | Some (c :: s) =>
               [heading_paragraph (str "Lot Specific Project Understanding:")
                  WD_ALIGN_PARAGRAPH.LEFT;
                empty_paragraph; body_paragraph (c :: s); empty_paragraph]
           | Some [] | None => []
           end
        ++ scope_paragraphs ul selected_tasks
    ∧ footer_paragraphs doc = [footer_paragraph].
Proof.
  intros Hknown.
  exists (expected_document ul uu project_info client_info selected_tasks).
  split; [| by repeat split].
  rewrite (generate_run _ _ _ _ _ _ _ Hknown).
  by rewrite (build_document_expected _ _ _ _ _ Hknown).
Qed.

Lemma sections_in_fixed_order_witness :
  ∃ doc,
    generate_msa_ipo_document ascii_only ascii_only example_project
      example_client example_tasks temp_path []
    = (Return temp_path, dict_set [] temp_path doc)
    ∧ top_margin doc = Some 914400%Z ∧ bottom_margin doc = Some 914400%Z
    ∧ left_margin doc = Some 914400%Z ∧ right_margin doc = Some 914400%Z
    ∧ paragraphs doc
      = title_paragraphs (upper ascii_only (pi_title example_project))
          (pi_ipo_number example_project)
        ++ opening_paragraphs (ci_name example_client)
             (ci_master_agreement_date example_client)
        ++ identification_paragraphs (pi_name example_project)
             (pi_name_line2 example_project)
             (pi_project_manager example_project)
             (pi_project_number example_project)
        ++ match pi_overall_understanding example_project with
           | Some (c :: s) =>
               [heading_paragraph (str "Overall Project Understanding:")
                  WD_ALIGN_PARAGRAPH.LEFT;
                empty_paragraph; body_paragraph (c :: s); empty_paragraph]
           | Some [] | None => []
           end
        ++ match pi_lot_understanding example_project with
           | Some (c :: s) =>
               [heading_paragraph (str "Lot Specific Project Understanding:")
                  WD_ALIGN_PARAGRAPH.LEFT;
                empty_paragraph; body_paragraph (c :: s); empty_paragraph]
           | Some [] | None => []
           end
        ++ scope_paragraphs ascii_only example_tasks
    ∧ footer_paragraphs doc = [footer_paragraph].
Proof.
  apply (sections_in_fixed_order ascii_only ascii_only example_project
           example_client example_tasks temp_path []).
  apply tasks_known_Forall.
  repeat constructor; eexists; vm_compute; reflexivity.
Defined.

Lemma dict_get_set_eq {V} (d : dict V) (k : pystr) (v : V) :
  dict_get (dict_set d k v) k = Some v.
Proof. rewrite dict_get_set. by rewrite decide_True. Qed.

(** The builders do not depend on the insertion order of the selection. *)
Lemma build_document_Permutation ul uu project_info client_info
    (st st' : dict SelectedTask) :
  NoDup (dict_keys st) → st' ≡ₚ st →
  build_document ul uu project_info client_info st' new_Document
  = build_document ul uu project_info client_info st new_Document.
Proof.
  intros Hnd Hp.
  unfold build_document, bind, set_top_margin, set_bottom_margin,
    set_left_margin, set_right_margin, modify.
  rewrite add_title_section_run, add_opening_paragraph_run,
    add_project_identification_run.
  destruct (truthy (pi_overall_understanding project_info));
    destruct (truthy (pi_lot_understanding project_info));
    unfold ret; rewrite ?add_section_with_heading_run;
    by rewrite (add_scope_of_services_Permutation ul st st' _ Hnd Hp).
Qed.

(** C9. Two invocations of the assembler on identical input records give
    identical documents: whatever files exist before either call, and in
    whatever order the same entries were inserted in [selected_tasks], both
    calls save the same document under the output path, or raise the same
    exception and save nothing.  For a selection within the catalog that
    document is [expected_document], whose margins, paragraphs, runs and
    footer are written out from the three input records alone. *)
Theorem assembly_deterministic ul uu project_info client_info
    (selected_tasks selected_tasks' : dict SelectedTask)
    (output_path : pystr) (fs fs' : FileStore) :
  NoDup (dict_keys selected_tasks) →
  selected_tasks' ≡ₚ selected_tasks →
  (∃ doc,
     generate_msa_ipo_document ul uu project_info client_info selected_tasks
       output_path fs
     = (Return output_path, dict_set fs output_path doc)
     ∧ generate_msa_ipo_document ul uu project_info client_info
         selected_tasks' output_path fs'
       = (Return output_path, dict_set fs' output_path doc)
     ∧ tasks_known selected_tasks
     ∧ doc = expected_document ul uu project_info client_info selected_tasks)
  ∨ (∃ k,
       generate_msa_ipo_document ul uu project_info client_info
         selected_tasks output_path fs
       = (Raise (KeyError k), fs)
       ∧ generate_msa_ipo_document ul uu project_info client_info
           selected_tasks' output_path fs'
         = (Raise (KeyError k), fs')
       ∧ k ∈ dict_keys selected_tasks
       ∧ dict_get TASK_DESCRIPTIONS k = None).
Proof.
  intros Hnd Hp. unfold generate_msa_ipo_document.
  rewrite (build_document_Permutation _ _ _ _ _ _ Hnd Hp).
  destruct (decide (Forall (λ k, is_Some (dict_get TASK_DESCRIPTIONS k))
                      (dict_keys selected_tasks))) as [Hknown | Hunknown].
  - apply tasks_known_Forall in Hknown. left.
    exists (expected_document ul uu project_info client_info selected_tasks).
    by rewrite (build_document_expected _ _ _ _ _ Hknown).
  - right. rewrite <- tasks_known_Forall in Hunknown.
    destruct (build_document_unknown ul uu project_info client_info
                selected_tasks Hunknown) as (k & Hin & Hnone & Hr).
    exists k.
    destruct (build_document _ _ _ _ _ _) as [r doc]. simpl in Hr. by subst r.
Qed.

Lemma assembly_deterministic_witness :
  (∃ doc,
     generate_msa_ipo_document ascii_only ascii_only example_project
       example_client example_tasks temp_path []
     = (Return temp_path, dict_set [] temp_path doc)
     ∧ generate_msa_ipo_document ascii_only ascii_only example_project
         example_client example_tasks_reordered temp_path
         [(temp_path, new_Document)]
       = (Return temp_path,
          dict_set [(temp_path, new_Document)] temp_path doc)
     ∧ tasks_known example_tasks
     ∧ doc = expected_document ascii_only ascii_only example_project
               example_client example_tasks)
  ∨ (∃ k,
       generate_msa_ipo_document ascii_only ascii_only example_project
         example_client example_tasks temp_path []
       = (Raise (KeyError k), [])
       ∧ generate_msa_ipo_document ascii_only ascii_only example_project
           example_client example_tasks_reordered temp_path
           [(temp_path, new_Document)]
         = (Raise (KeyError k), [(temp_path, new_Document)])
       ∧ k ∈ dict_keys example_tasks
       ∧ dict_get TASK_DESCRIPTIONS k = None).
Proof.
  apply (assembly_deterministic ascii_only ascii_only example_project
           example_client example_tasks example_tasks_reordered temp_path
           [] [(temp_path, new_Document)]).
  - apply (bool_decide_unpack _). vm_compute. exact I.
  - apply perm_swap.
Defined.

(** ** Fee defaulting *)

Lemma select_tasks_run checkbox number_input (task_nums : list pystr)
    (acc : dict SelectedTask) :
  Forall (λ k, is_Some (dict_get DEFAULT_FEES k)) task_nums →
  ∃ st,
    select_tasks checkbox number_input task_nums acc = Return st
    ∧ ∀ c, dict_get st c
           = if decide (c ∈ task_nums ∧ checkbox c = true)
             then selected_record (number_input c) <$> dict_get DEFAULT_FEES c
             else dict_get acc c.
Proof.
  intros Hall. revert acc.
  induction Hall as [|k l [t Ht] _ IH]; intros acc; cbn [select_tasks].
  - exists acc. split; [done |]. intros c.
    case_decide as H; [| done]. destruct H as [Hc _]. by inversion Hc.
  - rewrite Ht. destruct (checkbox k) eqn:Hk.
    + destruct (IH (dict_set acc k
                      (mkSelectedTask (task_name t)
                         (final_fee (number_input k) t) (task_type t))))
        as (st & Hst & Hget).
      exists st. split; [done |]. intros c. rewrite Hget, dict_get_set.
      destruct (decide (k = c)) as [<- | Hne].
      * rewrite (decide_True (P := k ∈ k :: l ∧ _)) by (split; [left | done]).
        rewrite Ht. by case_decide.
      * apply decide_ext. rewrite elem_of_cons. split.
        -- intros [? ?]. split; [by right | done].
        -- by intros [[-> | ?] ?].
    + destruct (IH acc) as (st & Hst & Hget).
      exists st. split; [done |]. intros c. rewrite Hget.
      apply decide_ext. rewrite elem_of_cons. split.
      * intros [? ?]. split; [by right | done].
      * intros [[-> | ?] ?]; [congruence | done].
Qed.

Lemma selected_tasks_run checkbox number_input :
  ∃ st,
    selected_tasks checkbox number_input = Return st
    ∧ ∀ c, dict_get st c
           = if checkbox c
             then selected_record (number_input c) <$> dict_get DEFAULT_FEES c
             else None.
Proof.
  destruct (select_tasks_run checkbox number_input
              (sorted (dict_keys DEFAULT_FEES)) []) as (st & Hst & Hget).
  { apply sorted_keys_selected. }
  exists st. split; [done |]. intros c. rewrite Hget.
  destruct (checkbox c) eqn:Hc.
  - case_decide as H; [done |].
    destruct (dict_get DEFAULT_FEES c) as [t|] eqn:Ht; [| done].
    destruct H. split; [| done]. rewrite sorted_Permutation.
    apply dict_get_is_Some. by rewrite Ht.
  - rewrite decide_False; [done |]. by intros [_ ?].
Qed.

(** C4. For a selected task the fee of the final record is the catalog
    default amount when no fee was entered, and the entered value when one
    was. *)
Theorem fee_defaulting checkbox number_input (c : pystr)
    (t : TaskDefinition) :
  dict_get DEFAULT_FEES c = Some t →
  checkbox c = true →
  ∃ st task,
    selected_tasks checkbox number_input = Return st
    ∧ dict_get st c = Some task
    ∧ sel_name task = task_name t ∧ sel_type task = task_type t
    ∧ (number_input c = None → sel_fee task = task_amount t)
    ∧ (∀ v, number_input c = Some v → sel_fee task = v).
Proof.
  intros Ht Hc.
  destruct (selected_tasks_run checkbox number_input) as (st & Hst & Hget).
  exists st, (selected_record (number_input c) t).
  split; [done |]. split; [by rewrite Hget, Hc, Ht |].
  split; [done |]. split; [done |]. simpl. split.
  - by intros ->.
  - by intros v ->.
Qed.

Lemma fee_defaulting_witness :
  ∃ st task,
    selected_tasks only_110 fee_blank = Return st
    ∧ dict_get st (str "110") = Some task
    ∧ sel_name task = task_name task_110 ∧ sel_type task = task_type task_110
    ∧ (fee_blank (str "110") = None → sel_fee task = task_amount task_110)
    ∧ (∀ v, fee_blank (str "110") = Some v → sel_fee task = v).
Proof.
  apply (fee_defaulting only_110 fee_blank (str "110") task_110).
  - vm_compute. reflexivity.
  - vm_compute. reflexivity.
Defined.

(** C5, as stated, fails: with the box of task 110 ticked, an entered fee
    of 0 gives a record with fee 0, and a blank field one with fee 40000. *)
Lemma zero_fee_differs_from_blank :
  selected_tasks only_110 fee_zero
  = Return [(str "110", selected_record (Some 0%Z) task_110)]
  ∧ sel_fee (selected_record (Some 0%Z) task_110) = 0%Z
  ∧ selected_tasks only_110 fee_blank
    = Return [(str "110", selected_record None task_110)]
  ∧ sel_fee (selected_record None task_110) = 40000%Z
  ∧ selected_tasks only_110 fee_zero ≠ selected_tasks only_110 fee_blank.
Proof.
  assert (selected_tasks only_110 fee_zero
          = Return [(str "110", selected_record (Some 0%Z) task_110)]) as H0
    by (vm_compute; reflexivity).
  assert (selected_tasks only_110 fee_blank
          = Return [(str "110", selected_record None task_110)]) as H1
    by (vm_compute; reflexivity).
  split; [done |]. split; [done |]. split; [done |]. split; [done |].
  rewrite H0, H1. intros [=].
Qed.

(** C5, amended. The fee field is tested with [is not None], so an entered
    fee of 0 counts as provided: the final record of the task has fee 0,
    not the catalog default. *)
Theorem zero_fee_is_kept checkbox number_input (c : pystr)
    (t : TaskDefinition) :
  dict_get DEFAULT_FEES c = Some t →
  checkbox c = true →
  number_input c = Some 0%Z →
  ∃ st,
    selected_tasks checkbox number_input = Return st
    ∧ dict_get st c
      = Some (mkSelectedTask (task_name t) 0 (task_type t)).
Proof.
  intros Ht Hc Hfee.
  destruct (selected_tasks_run checkbox number_input) as (st & Hst & Hget).
  exists st. split; [done |]. by rewrite Hget, Hc, Ht, Hfee.
Qed.

Lemma zero_fee_is_kept_witness :
  ∃ st,
    selected_tasks only_110 fee_zero = Return st
    ∧ dict_get st (str "110")
      = Some (mkSelectedTask (task_name task_110) 0 (task_type task_110)).
Proof.
  apply (zero_fee_is_kept only_110 fee_zero (str "110") task_110).
  - vm_compute. reflexivity.
  - vm_compute. reflexivity.
  - reflexivity.
Defined.

(** ** Task headings *)

(** C6, as stated, fails: in the name "Non-Civil Works" the word is not a
    leading prefix, yet it is removed from the heading. *)
Lemma inner_civil_is_removed :
  task_heading (str "110") (mkSelectedTask (str "Non-Civil Works") 0 [])
  = str "Task 110 " ++ [en_dash] ++ str " Non-Works"
  ∧ task_heading (str "110") (mkSelectedTask (str "Non-Civil Works") 0 [])
    ≠ str "Task " ++ str "110" ++ str " " ++ [en_dash] ++ str " "
      ++ strip_leading (str "Civil ") (str "Non-Civil Works").
Proof.
  split; [vm_compute; reflexivity |]. vm_compute. intros H. discriminate H.
Qed.

(** C6, amended. The heading text is "Task ", the code, " – " and the name
    with every occurrence of "Civil " removed, found from left to right;
    when "Civil " occurs in the name only as a leading prefix or not at
    all, this is the name without the leading prefix. *)
Theorem task_heading_text (task_num : pystr) (task : SelectedTask) :
  (∃ r, removes_all (str "Civil ") (sel_name task) r
        ∧ task_heading task_num task
          = str "Task " ++ task_num ++ str " " ++ [en_dash] ++ str " " ++ r)
  ∧ (∀ r, removes_all (str "Civil ") (sel_name task) r →
          task_heading task_num task
          = str "Task " ++ task_num ++ str " " ++ [en_dash] ++ str " " ++ r)
  ∧ (¬ occurs_in (str "Civil ")
         (strip_leading (str "Civil ") (sel_name task)) →
     task_heading task_num task
     = str "Task " ++ task_num ++ str " " ++ [en_dash] ++ str " "
       ++ strip_leading (str "Civil ") (sel_name task)).
Proof.
  assert (str "Civil " ≠ []) as Hne by done.
  unfold task_heading. split; [| split].
  - exists (replace (sel_name task) (str "Civil ") (str "")).
    split; [by apply replace_removes_all | done].
  - intros r Hr. do 5 f_equal.
    apply (removes_all_functional (str "Civil ") (sel_name task)); [done | | done].
    by apply replace_removes_all.
  - unfold strip_leading. intros Hno. do 5 f_equal.
    destruct (startswith (sel_name task) (str "Civil ")) eqn:Hs.
    + apply startswith_spec in Hs as [rest Hs]. rewrite Hs in Hno |- *.
      rewrite drop_app_length in Hno |- *.
      rewrite replace_hit by done. by apply replace_no_occurrence.
    + by apply replace_no_occurrence.
Qed.

(** ** The optional second name line *)

Lemma truthy_spec (o : option pystr) :
  truthy o = true ↔ ∃ s, o = Some s ∧ s ≠ [].
Proof.
  destruct o as [[|c s]|]; simpl; split; try done.
  - intros (s & [= <-] & Hs). done.
  - intros _. by exists (c :: s).
  - intros (s & [=] & _).
Qed.

(** C7. The paragraph of the second name line is emitted exactly when the
    field holds a non-empty string; the identification block with the
    field is the block without it plus that one paragraph, which is not a
    blank line, so the blank-line separators are the same in both. *)
Theorem name_line2_one_paragraph (project_name : pystr)
    (project_name_line2 : option pystr)
    (project_manager project_number : pystr) (d : Document) :
  ∃ before after,
    add_project_identification project_name None project_manager
      project_number d
    = (Return (), append_paragraphs d (before ++ after))
    ∧ add_project_identification project_name project_name_line2
        project_manager project_number d
      = (Return (),
         append_paragraphs d
           (before
            ++ match project_name_line2 with
               | Some (c :: s) => [name_line2_paragraph (c :: s)]
               | Some [] | None => []
               end
            ++ after))
    ∧ (∀ value, is_blank (name_line2_paragraph value) = false)
    ∧ (∀ value, name_line2_paragraph value ∉ before ++ after).
Proof.
  exists [heading_paragraph (str "Identification of Project:")
            WD_ALIGN_PARAGRAPH.LEFT;
          empty_paragraph;
          label_paragraph (str "Project Name:" ++ [9%N]) project_name],
         [label_paragraph (str "KH Project Manager:" ++ [9%N])
            project_manager;
          label_paragraph (str "Project Number:" ++ [9%N]) project_number;
          empty_paragraph].
  rewrite !add_project_identification_run.
  split; [done |]. split; [by destruct project_name_line2 as [[|c s]|] |].
  split; [done |]. intros value Hin.
  unfold name_line2_paragraph, heading_paragraph, label_paragraph,
    spaced_paragraph, calibri_run, empty_paragraph, empty_font in Hin.
  repeat (apply elem_of_cons in Hin as [Hin | Hin]; [discriminate Hin |]).
  by apply elem_of_nil in Hin.
Qed.

(** ** Fonts and spacing *)

(** C10: at an input with a second name line, the tab that starts the line
    is a run whose font family is not set. *)
Lemma tab_run_without_font :
  ∃ p r,
    p ∈ emitted (add_project_identification (str "Example Project")
                   (Some (str "Lot A Hotel")) (str "J. Doe, PE")
                   (str "100000001"))
    ∧ r ∈ runs p ∧ run_text r = [9%N] ∧ font_name (run_font r) = None.
Proof.
  exists (name_line2_paragraph (str "Lot A Hotel")), bare_tab_run.
  rewrite (emitted_run _ _ (add_project_identification_run _ _ _ _ _)).
  split; [| split; [by left | done]].
  do 3 apply list_elem_of_further. by left.
Qed.

Ltac solve_styled :=
  repeat first
    [ apply Forall_nil_2
    | apply Forall_cons_2
    | split; [intros ?; first [done | by split] |]
    | by left
    | by right ].

Lemma Forall_flat_map_elem {A B} (P : B → Prop) (f : A → list B)
    (l : list A) :
  (∀ x, x ∈ l → Forall P (f x)) → Forall P (flat_map f l).
Proof.
  induction l as [|x l IH]; intros H; simpl; [done |].
  apply Forall_app. split; [apply H; by left |].
  apply IH. intros y Hy. apply H. by right.
Qed.

Lemma styled_description_paragraphs ul (descriptions : list pystr) :
  Forall styled (flat_map (description_paragraphs ul) descriptions).
Proof.
  induction descriptions as [|desc l IH]; simpl; [done |].
  apply Forall_app. split; [| done].
  unfold description_paragraphs. destruct (is_subsection ul desc); solve_styled.
Qed.

Lemma styled_selected_task_paragraphs ul (st : dict SelectedTask) k :
  Forall styled (selected_task_paragraphs ul st k).
Proof.
  unfold selected_task_paragraphs.
  destruct (dict_get st k) as [t|]; [| done].
  destruct (dict_get TASK_DESCRIPTIONS k) as [ds|]; [| done].
  unfold task_paragraphs. do 2 (apply Forall_cons_2; [solve_styled |]).
  apply styled_description_paragraphs.
Qed.

(** Apart from the bare tab, every run of the body is in Calibri and every
    paragraph that is not a blank line has the fixed spacing; the footer
    run is in Calibri too. *)
Lemma document_styled ul uu project_info client_info
    (selected_tasks : dict SelectedTask) :
  tasks_known selected_tasks →
  let doc := (build_document ul uu project_info client_info selected_tasks
                new_Document).2 in
  Forall styled (paragraphs doc)
  ∧ Forall (λ p, Forall calibri (runs p)) (footer_paragraphs doc).
Proof.
  intros Hknown doc. subst doc.
  rewrite (build_document_run _ _ _ _ _ Hknown).
  cbn [snd paragraphs footer_paragraphs]. split; [| by repeat constructor].
  rewrite (emitted_run _ _ (add_title_section_run _ _ _ _)).
  rewrite (emitted_run _ _ (add_opening_paragraph_run _ _ _)).
  rewrite (emitted_run _ _ (add_project_identification_run _ _ _ _ _)).
  rewrite !(emitted_run _ _ (add_section_with_heading_run _ _ _)).
  rewrite (emitted_run _ _ (add_scope_of_services_run _ _ _ Hknown)).
  repeat (apply Forall_app; split).
  - solve_styled.
  - solve_styled.
  - solve_styled.
  - destruct (truthy (pi_name_line2 project_info)); solve_styled.
  - solve_styled.
  - destruct (truthy (pi_overall_understanding project_info)); solve_styled.
  - destruct (truthy (pi_lot_understanding project_info)); solve_styled.
  - do 2 (apply Forall_cons_2; [solve_styled |]).
    apply Forall_flat_map_elem. intros k Hk.
    rewrite sorted_Permutation in Hk.
    rewrite emitted_add_task;
      [apply styled_selected_task_paragraphs | by apply dict_get_is_Some
      | by apply Hknown].
Qed.

(** ** Evaluations on the catalog *)

Example lengths_in_emu :
  Inches 1 = 914400%Z ∧ Inches 2.5 = 2286000%Z ∧ Pt 11 = 139700%Z.
Proof. by vm_compute. Qed.

Example catalog_codes_sorted :
  sorted (dict_keys DEFAULT_FEES)
  = [str "110"; str "120"; str "130"; str "140"; str "150"; str "210"].
Proof. by vm_compute. Qed.

Example sorted_compares_code_points :
  sorted [str "210"; str "1000"; str "110"]
  = [str "1000"; str "110"; str "210"].
Proof. by vm_compute. Qed.

(** The fragments of task 140: six captions are sub-headings; "Erosion and
    Sediment Control Plan" contains no keyword and is a normal paragraph. *)
Example task_140_subsections :
  is_subsection ascii_only <$> default [] (dict_get TASK_DESCRIPTIONS (str "140"))
  = [false; true; false; true; false; true; false; true; false; true; false;
     false; false; true; false].
Proof. by vm_compute. Qed.

Example subsection_boundaries :
  is_subsection ascii_only (str "COVER SHEET") = true
  ∧ is_subsection ascii_only (str "Cover Sheet.") = false
  ∧ is_subsection ascii_only (str "Title Sheet") = false
  ∧ is_subsection ascii_only (replicate 93 32%N ++ str "Details") = false
  ∧ is_subsection ascii_only (replicate 92 32%N ++ str "Details") = true.
Proof. by vm_compute. Qed.

Example catalog_headings :
  task_heading (str "140")
    (mkSelectedTask (str "Civil Construction Documents") 50000 [])
  = str "Task 140 " ++ [en_dash] ++ str " Construction Documents"
  ∧ task_heading (str "210")
      (mkSelectedTask (str "Meetings and Coordination") 20000 [])
    = str "Task 210 " ++ [en_dash] ++ str " Meetings and Coordination".
Proof. by vm_compute. Qed.

Example example_document_size :
  length (paragraphs
            (build_document ascii_only ascii_only example_project
               example_client example_tasks new_Document).2) = 32.
Proof. by vm_compute. Qed.

(** * Further properties of the page *)

(** ** The selection loop *)

Lemma dict_keys_set_new {V} (d : dict V) (k : pystr) (v : V) :
  k ∉ dict_keys d → dict_keys (dict_set d k v) = dict_keys d ++ [k].
Proof.
  unfold dict_keys. induction d as [|[k' v'] d IH]; simpl; [done |].
  intros Hk. apply not_elem_of_cons in Hk as [Hne Hk].
  rewrite decide_False by done. rewrite !fmap_cons. simpl. f_equal.
  by apply IH.
Qed.

Lemma select_tasks_keys checkbox number_input (task_nums : list pystr)
    (acc st : dict SelectedTask) :
  NoDup task_nums →
  (∀ k, k ∈ task_nums → k ∉ dict_keys acc) →
  select_tasks checkbox number_input task_nums acc = Return st →
  dict_keys st = dict_keys acc ++ List.filter checkbox task_nums.
Proof.
  revert acc. induction task_nums as [|k l IH]; intros acc Hnd Hfresh;
    cbn [select_tasks List.filter].
  - intros [= <-]. by rewrite app_nil_r.
  - apply NoDup_cons in Hnd as [Hk Hnd].
    destruct (dict_get DEFAULT_FEES k) as [t|]; [| done].
    destruct (checkbox k).
    + intros Hst. apply IH in Hst; [| done |].
      * rewrite Hst, dict_keys_set_new by (apply Hfresh; left).
        by rewrite <- (assoc_L (++)).
      * intros k' Hk'. rewrite dict_keys_set_new by (apply Hfresh; left).
        rewrite elem_of_app, list_elem_of_singleton.
        intros [Hin | ->]; [| done]. by apply (Hfresh k'); [right |].
    + apply IH; [done |]. intros k' Hk'. apply Hfresh. by right.
Qed.

(** Every code of the fee catalog has descriptions. *)
Lemma catalog_consistent :
  Forall (λ k, is_Some (dict_get TASK_DESCRIPTIONS k)) (dict_keys DEFAULT_FEES).
Proof. repeat constructor; eexists; vm_compute; reflexivity. Qed.

Lemma catalog_keys_NoDup : NoDup (dict_keys DEFAULT_FEES).
Proof. apply (bool_decide_unpack _). by vm_compute. Qed.

Lemma selected_tasks_keys checkbox number_input :
  ∃ st,
    selected_tasks checkbox number_input = Return st
    ∧ dict_keys st = List.filter checkbox (sorted (dict_keys DEFAULT_FEES))
    ∧ NoDup (dict_keys st)
    ∧ tasks_known st.
Proof.
  destruct (selected_tasks_run checkbox number_input) as (st & Hst & _).
  exists st. split; [done |].
  assert (dict_keys st
          = List.filter checkbox (sorted (dict_keys DEFAULT_FEES))) as Hkeys.
  { apply (select_tasks_keys checkbox number_input _ [] st) in Hst; [done | |].
    - rewrite sorted_Permutation. apply catalog_keys_NoDup.
    - intros k _ Hk. by apply elem_of_nil in Hk. }
  split; [done |].
  assert (∀ k, k ∈ dict_keys st → k ∈ dict_keys DEFAULT_FEES) as Hsub.
  { intros k Hk. rewrite Hkeys in Hk.
    apply list_elem_of_In, filter_In in Hk as [Hk _].
    apply list_elem_of_In in Hk. by rewrite sorted_Permutation in Hk. }
  split.
  - rewrite Hkeys. apply NoDup_ListNoDup, List.NoDup_filter, NoDup_ListNoDup.
    rewrite sorted_Permutation. apply catalog_keys_NoDup.
  - intros k Hk. pose proof catalog_consistent as Hc.
    rewrite Forall_forall in Hc. by apply Hc, Hsub.
Qed.

(** X1. The selection loop never raises; the keys of [selected_tasks] are
    the ticked codes of the catalog, inserted in ascending order, without
    repetition, and each of them has descriptions. *)
Theorem selection_keys checkbox number_input :
  ∃ st,
    selected_tasks checkbox number_input = Return st
    ∧ dict_keys st = List.filter checkbox (sorted (dict_keys DEFAULT_FEES))
    ∧ NoDup (dict_keys st)
    ∧ tasks_known st.
Proof. apply selected_tasks_keys. Qed.

(** ** Validation of the form *)

Lemma str_truthy_false (s : pystr) : str_truthy s = false ↔ s = [].
Proof. by destruct s. Qed.

Lemma filter_empty_values (items : dict pystr) (field : pystr) :
  field ∈ (List.filter (λ item, negb (str_truthy item.2)) items).*1
  ↔ (field, []) ∈ items.
Proof.
  rewrite list_elem_of_fmap. split.
  - intros ([k v] & -> & Hin). apply list_elem_of_In, filter_In in Hin.
    destruct Hin as [Hin Hv]. simpl in *.
    apply negb_true_iff, str_truthy_false in Hv as ->.
    by apply list_elem_of_In.
  - intros Hin. exists (field, []). split; [done |].
    apply list_elem_of_In, filter_In. split; [by apply list_elem_of_In | done].
Qed.

(** X2. [missing_fields] holds exactly the labels of the required fields
    whose value is the empty string, in the order of the form. *)
Theorem missing_fields_spec (f : Form.t) (field : pystr) :
  (field ∈ missing_fields f ↔ (field, []) ∈ required_fields f)
  ∧ missing_fields f `sublist_of` dict_keys (required_fields f).
Proof.
  split; [apply filter_empty_values |].
  unfold missing_fields, dict_keys. apply fmap_sublist.
  induction (required_fields f) as [|item l IH]; simpl; [done |].
  destruct (negb (str_truthy item.2)); by constructor.
Qed.

Lemma can_generate_iff (f : Form.t) (selected_tasks : dict SelectedTask) :
  can_generate f selected_tasks = true
  ↔ Form.project_title f ≠ [] ∧ Form.ipo_number f ≠ []
    ∧ Form.project_name f ≠ [] ∧ Form.client_name f ≠ []
    ∧ Form.master_agreement_date f ≠ [] ∧ Form.project_manager f ≠ []
    ∧ Form.project_number f ≠ [] ∧ Form.overall_understanding f ≠ []
    ∧ Form.lot_understanding f ≠ [] ∧ selected_tasks ≠ [].
Proof.
  unfold can_generate.
  assert (missing_fields f = []
          ↔ Forall (λ item, item.2 ≠ []) (required_fields f)) as Hm.
  { unfold missing_fields.
    induction (required_fields f) as [|[k v] l IH]; simpl; [done |].
    rewrite Forall_cons. destruct v as [|c v]; simpl.
    - split; [done | by intros [? _]].
    - rewrite IH. split; [by intros ? | by intros [_ ?]]. }
  destruct (missing_fields f) as [|m ms].
  - destruct Hm as [Hm _]. specialize (Hm eq_refl).
    unfold required_fields in Hm. repeat rewrite Forall_cons in Hm. simpl in Hm.
    destruct selected_tasks; split; try done.
    + by intros (_ & _ & _ & _ & _ & _ & _ & _ & _ & ?).
    + intros _. destruct_and!. by repeat split.
  - split; [done |]. intros H. destruct Hm as [_ Hm].
    discriminate Hm. unfold required_fields.
    repeat (apply Forall_cons_2; [simpl; tauto |]). done.
Qed.

(** X3. The button is enabled exactly when none of the nine required
    fields is empty and at least one task is selected; the second name
    line is not required. *)
Theorem can_generate_spec (f : Form.t) (selected_tasks : dict SelectedTask) :
  can_generate f selected_tasks = true
  ↔ Form.project_title f ≠ [] ∧ Form.ipo_number f ≠ []
    ∧ Form.project_name f ≠ [] ∧ Form.client_name f ≠ []
    ∧ Form.master_agreement_date f ≠ [] ∧ Form.project_manager f ≠ []
    ∧ Form.project_number f ≠ [] ∧ Form.overall_understanding f ≠ []
    ∧ Form.lot_understanding f ≠ [] ∧ selected_tasks ≠ [].
Proof. apply can_generate_iff. Qed.

(** ** The name of the download *)

Lemma replace_single (s : pystr) (a b : N) :
  replace s [a] [b] = (λ c, if decide (c = a) then b else c) <$> s.
Proof.
  unfold replace. induction s as [|c s IH]; [done |].
  cbn [replace_from startswith length pred fmap list_fmap].
  rewrite andb_true_r.
  destruct (decide (c = a)) as [-> | Hne].
  - rewrite bool_decide_eq_true_2 by done. simpl. by rewrite IH.
  - rewrite bool_decide_eq_false_2 by done. by rewrite IH.
Qed.

(** X4. The file name of the download is "IPO_", the IPO number, "_", the
    first 30 characters of the project name with every space turned into
    an underscore, and ".docx"; that part contains no space and has at
    most 30 characters. *)
Theorem download_filename_spec (ipo_number project_name : pystr) :
  ∃ part,
    download_filename ipo_number project_name
    = str "IPO_" ++ ipo_number ++ str "_" ++ part ++ str ".docx"
    ∧ part = take 30 ((λ c, if decide (c = 32%N) then 95%N else c)
                        <$> project_name)
    ∧ length part = length project_name `min` 30
    ∧ 32%N ∉ part.
Proof.
  eexists. split; [done |].
  change (str " ") with [32%N]. change (str "_") with [95%N].
  rewrite replace_single. split; [done |]. split.
  - rewrite length_take, length_fmap. lia.
  - intros Hin. apply elem_of_take in Hin as (i & Hi & _).
    apply list_lookup_fmap_Some in Hi as (c & Heq & _).
    destruct (decide (c = 32%N)) as [-> | Hne]; [done | by destruct Hne].
Qed.

(** ** The total of the summary *)

Lemma add_fees_run (st : dict SelectedTask) (task_nums : list pystr)
    (total : Z) :
  Forall (λ k, is_Some (dict_get st k)) task_nums →
  add_fees st task_nums total
  = Return (total
            + foldr Z.add 0
                ((λ k, default 0 (sel_fee <$> dict_get st k)) <$> task_nums))%Z.
Proof.
  intros Hall. revert total.
  induction Hall as [|k l [t Ht] _ IH]; intros total; cbn [add_fees].
  - simpl. by rewrite Z.add_0_r.
  - rewrite Ht, IH, fmap_cons, Ht. simpl. f_equal. lia.
Qed.

Lemma sum_Permutation (l1 l2 : list Z) :
  l1 ≡ₚ l2 → foldr Z.add 0%Z l1 = foldr Z.add 0%Z l2.
Proof. induction 1; simpl; lia. Qed.

Lemma fees_of_keys (st : dict SelectedTask) :
  NoDup (dict_keys st) →
  (λ k, default 0%Z (sel_fee <$> dict_get st k)) <$> dict_keys st
  = sel_fee <$> st.*2.
Proof.
  intros Hnd. unfold dict_keys. rewrite <- !list_fmap_compose.
  apply list_fmap_ext. intros i [k v] Hi. simpl.
  rewrite (dict_get_elem st k v); [done | done |].
  by apply list_elem_of_lookup_2 in Hi.
Qed.

Lemma total_fee_run (st : dict SelectedTask) :
  NoDup (dict_keys st) →
  total_fee st = Return (foldr Z.add 0%Z (sel_fee <$> st.*2)).
Proof.
  intros Hnd. unfold total_fee.
  rewrite add_fees_run by apply sorted_keys_selected.
  rewrite Z.add_0_l, <- (fees_of_keys st Hnd). f_equal.
  apply sum_Permutation. by rewrite sorted_Permutation.
Qed.

(** X5. For a selection that is not empty, the total fee of the summary is
    the sum of the fees of the selected tasks, whatever the order of their
    insertion; the loop never raises. *)
Theorem total_fee_is_sum (selected_tasks : dict SelectedTask) :
  selected_tasks ≠ [] →
  NoDup (dict_keys selected_tasks) →
  total_fee selected_tasks
  = Return (foldr Z.add 0%Z (sel_fee <$> selected_tasks.*2))
  ∧ ∀ selected_tasks',
      selected_tasks' ≡ₚ selected_tasks →
      total_fee selected_tasks' = total_fee selected_tasks.
Proof.
  intros _ Hnd. split; [by apply total_fee_run |]. intros st' Hp.
  rewrite !total_fee_run; [| done | unfold dict_keys; by rewrite Hp].
  f_equal. apply sum_Permutation. by rewrite Hp.
Qed.

Lemma total_fee_is_sum_witness :
  total_fee example_tasks
  = Return (foldr Z.add 0%Z (sel_fee <$> example_tasks.*2))
  ∧ ∀ selected_tasks',
      selected_tasks' ≡ₚ example_tasks →
      total_fee selected_tasks' = total_fee example_tasks.
Proof.
  apply (total_fee_is_sum example_tasks).
  - discriminate.
  - apply (bool_decide_unpack _). vm_compute. exact I.
Defined.

Lemma catalog_amounts_nonnegative :
  Forall (λ item, 0 ≤ task_amount item.2)%Z DEFAULT_FEES.
Proof. repeat constructor; by vm_compute. Qed.

(** X6. When no negative fee is entered (the fee field has minimum 0) and
    some task is selected on the page, the total fee of the summary is
    computed and is not negative. *)
Theorem page_total_nonnegative checkbox number_input
    (st : dict SelectedTask) :
  (∀ k v, number_input k = Some v → (0 ≤ v)%Z) →
  selected_tasks checkbox number_input = Return st →
  st ≠ [] →
  ∃ total, total_fee st = Return total ∧ (0 ≤ total)%Z.
Proof.
  intros Hfees Hst _.
  destruct (selected_tasks_keys checkbox number_input)
    as (st0 & Hst0 & _ & Hnd & _).
  assert (st0 = st) as -> by congruence.
  destruct (selected_tasks_run checkbox number_input) as (st' & Hst' & Hget).
  assert (st' = st) as -> by congruence.
  exists (foldr Z.add 0%Z (sel_fee <$> st.*2)).
  split; [by apply total_fee_run |].
  assert (Forall (λ v, 0 ≤ sel_fee v)%Z st.*2) as Hall.
  { apply Forall_fmap, Forall_forall. intros [k v] Hin. simpl.
    apply (dict_get_elem st k v Hnd) in Hin. rewrite Hget in Hin.
    destruct (checkbox k); [| done].
    destruct (dict_get DEFAULT_FEES k) as [t|] eqn:Ht; [| done].
    injection Hin as <-. simpl. unfold final_fee.
    destruct (number_input k) as [x|] eqn:Hx; [by apply (Hfees k) |].
    apply dict_get_Some_elem in Ht. pose proof catalog_amounts_nonnegative as Hc.
    rewrite Forall_forall in Hc. by apply (Hc (k, t)). }
  induction Hall as [|v l Hv _ IH]; [done |].
  rewrite fmap_cons. cbn [foldr]. lia.
Qed.

Lemma page_total_nonnegative_witness :
  ∃ total,
    total_fee [(str "110", selected_record (Some 0%Z) task_110)]
    = Return total
    ∧ (0 ≤ total)%Z.
Proof.
  apply (page_total_nonnegative only_110 fee_zero).
  - intros k v [= <-]. done.
  - vm_compute. reflexivity.
  - discriminate.
Defined.

(** ** Which unknown code is reported *)

Lemma first_unknown_split (l : list pystr) :
  Exists (λ k, dict_get TASK_DESCRIPTIONS k = None) l →
  ∃ pre k post,
    l = pre ++ k :: post
    ∧ Forall (λ k, is_Some (dict_get TASK_DESCRIPTIONS k)) pre
    ∧ dict_get TASK_DESCRIPTIONS k = None.
Proof.
  induction l as [|x l IH]; intros Hex; [by inversion Hex |].
  destruct (dict_get TASK_DESCRIPTIONS x) as [ds|] eqn:Hx.
  - apply Exists_cons in Hex as [Hex | Hex]; [congruence |].
    destruct (IH Hex) as (pre & k & post & -> & Hpre & Hk).
    exists (x :: pre), k, post. split; [done |]. split; [| done].
    apply Forall_cons_2; [by eexists | done].
  - by exists [], x, l.
Qed.

Lemma for_each_add_task_first_unknown ul (st : dict SelectedTask)
    (pre : list pystr) (k : pystr) (post : list pystr) d :
  Forall (λ k, is_Some (dict_get st k)) (pre ++ k :: post) →
  Forall (λ k, is_Some (dict_get TASK_DESCRIPTIONS k)) pre →
  dict_get TASK_DESCRIPTIONS k = None →
  (for_each (pre ++ k :: post) (add_task ul st) d).1 = Raise (KeyError k).
Proof.
  revert d. induction pre as [|x pre IH]; intros d Hsel Hpre Hk;
    simpl; unfold bind.
  - apply Forall_cons in Hsel as [[t Ht] _].
    by rewrite (add_task_unknown _ _ _ _ _ Ht Hk).
  - apply Forall_cons in Hsel as [[t Ht] Hsel].
    apply Forall_cons in Hpre as [[ds Hds] Hpre].
    rewrite (add_task_run _ _ _ _ _ _ Ht Hds). by apply IH.
Qed.

Lemma build_document_scope_raise ul uu project_info client_info
    (selected_tasks : dict SelectedTask) :
  ∃ d, ∀ e,
    (add_scope_of_services ul selected_tasks d).1 = Raise e →
    (build_document ul uu project_info client_info selected_tasks
       new_Document).1 = Raise e.
Proof.
  unfold build_document, bind, set_top_margin, set_bottom_margin,
    set_left_margin, set_right_margin, modify.
  rewrite add_title_section_run, add_opening_paragraph_run,
    add_project_identification_run.
  destruct (truthy (pi_overall_understanding project_info));
    destruct (truthy (pi_lot_understanding project_info));
    unfold ret; rewrite ?add_section_with_heading_run;
    match goal with |- context [add_scope_of_services _ _ ?d] =>
      exists d; intros e He;
      destruct (add_scope_of_services ul selected_tasks d) as [[] ?];
      simpl in *; congruence
    end.
Qed.

(** X7. With several unknown task codes the assembly reports the least of
    them in the order of strings: the tasks are visited in sorted order and
    the first unknown one raises [KeyError]. *)
Theorem least_unknown_code_reported ul uu project_info client_info
    (selected_tasks : dict SelectedTask) (output_path : pystr)
    (fs : FileStore) :
  ¬ tasks_known selected_tasks →
  ∃ k,
    generate_msa_ipo_document ul uu project_info client_info selected_tasks
      output_path fs
    = (Raise (KeyError k), fs)
    ∧ k ∈ dict_keys selected_tasks
    ∧ dict_get TASK_DESCRIPTIONS k = None
    ∧ ∀ k', k' ∈ dict_keys selected_tasks →
            dict_get TASK_DESCRIPTIONS k' = None → str_le k k'.
Proof.
  intros Hunknown.
  assert (Exists (λ k, dict_get TASK_DESCRIPTIONS k = None)
            (sorted (dict_keys selected_tasks))) as Hex.
  { destruct (decide (Exists (λ k, dict_get TASK_DESCRIPTIONS k = None)
                        (sorted (dict_keys selected_tasks)))) as [? | Hno];
      [done |].
    destruct Hunknown. intros k Hk.
    apply not_Exists_Forall in Hno; [| intros ?; apply _].
    rewrite Forall_forall in Hno. specialize (Hno k).
    rewrite sorted_Permutation in Hno. specialize (Hno Hk).
    destruct (dict_get TASK_DESCRIPTIONS k) eqn:Hd; [by eexists |].
    by destruct Hno. }
  destruct (first_unknown_split _ Hex) as (pre & k & post & Hl & Hpre & Hk).
  exists k.
  assert (k ∈ dict_keys selected_tasks) as Hin.
  { rewrite <- (sorted_Permutation (dict_keys selected_tasks)), Hl.
    apply elem_of_app. right. by left. }
  split; [| split; [done | split; [done |]]].
  - destruct (build_document_scope_raise ul uu project_info client_info
                selected_tasks) as (d & Hd).
    specialize (Hd (KeyError k)). unfold generate_msa_ipo_document.
    destruct (build_document _ _ _ _ _ _) as [r doc]. simpl in Hd.
    rewrite Hd; [done |]. rewrite add_scope_of_services_loop, Hl.
    apply for_each_add_task_first_unknown; [| done | done].
    rewrite <- Hl. apply sorted_keys_selected.
  - intros k' Hin' Hk'.
    rewrite <- (sorted_Permutation (dict_keys selected_tasks)), Hl in Hin'.
    pose proof (Sorted_StronglySorted _ _
                  (sorted_Sorted (dict_keys selected_tasks))) as Hs.
    rewrite Hl in Hs. apply StronglySorted_app_1_r in Hs.
    apply StronglySorted_inv in Hs as [_ Hs]. rewrite Forall_forall in Hs.
    apply elem_of_app in Hin' as [Hin' | Hin'].
    + rewrite Forall_forall in Hpre. destruct (Hpre k' Hin') as [? ?].
      congruence.
    + apply elem_of_cons in Hin' as [-> | Hin'].
      * unfold str_le. by rewrite str_compare_refl.
      * by apply Hs.
Qed.

(** A selection with two codes that the catalog does not have. *)
Lemma two_unknown_codes_not_known :
  ¬ tasks_known [(str "999", mkSelectedTask (str "Survey") 1000 []);
                 (str "300", mkSelectedTask (str "Landscape") 500 [])].
Proof.
  intros H. destruct (H (str "999")) as [ds Hds]; [by left |].
  vm_compute in Hds. discriminate Hds.
Defined.

Lemma least_unknown_code_reported_witness :
  ∃ k,
    generate_msa_ipo_document ascii_only ascii_only example_project
      example_client
      [(str "999", mkSelectedTask (str "Survey") 1000 []);
       (str "300", mkSelectedTask (str "Landscape") 500 [])]
      temp_path []
    = (Raise (KeyError k), [])
    ∧ k ∈ dict_keys [(str "999", mkSelectedTask (str "Survey") 1000 []);
                     (str "300", mkSelectedTask (str "Landscape") 500 [])]
    ∧ dict_get TASK_DESCRIPTIONS k = None
    ∧ ∀ k', k' ∈ dict_keys
                   [(str "999", mkSelectedTask (str "Survey") 1000 []);
                    (str "300", mkSelectedTask (str "Landscape") 500 [])] →
            dict_get TASK_DESCRIPTIONS k' = None → str_le k k'.
Proof.
  apply (least_unknown_code_reported ascii_only ascii_only example_project
           example_client _ temp_path []).
  apply two_unknown_codes_not_known.
Defined.

(** ** The button *)

Lemma on_generate_run ul uu (f : Form.t) (st : dict SelectedTask)
    (fs : FileStore) :
  tasks_known st →
  on_generate ul uu f st fs
  = (Download
       (build_document ul uu (prepare_project_info f) (prepare_client_info f)
          st new_Document).2
       (download_filename (Form.ipo_number f) (Form.project_name f)),
     dict_set fs (str "/tmp/temp_ipo.docx")
       (build_document ul uu (prepare_project_info f) (prepare_client_info f)
          st new_Document).2).
Proof.
  intros Hknown. unfold on_generate. cbv zeta.
  rewrite (generate_run _ _ _ _ _ _ _ Hknown). by rewrite dict_get_set_eq.
Qed.

(** X9. For the tasks selected on the page, pressing the button always ends
    in a download, never in an error message: the data offered is the
    document just built, also when an older file was at the temporary path,
    and the file name is the one derived from the form. *)
Theorem button_offers_new_document ul uu (f : Form.t) checkbox number_input
    (st : dict SelectedTask) (fs : FileStore) :
  selected_tasks checkbox number_input = Return st →
  ∃ doc,
    build_document ul uu (prepare_project_info f) (prepare_client_info f) st
      new_Document
    = (Return (), doc)
    ∧ on_generate ul uu f st fs
      = (Download doc
           (download_filename (Form.ipo_number f) (Form.project_name f)),
         dict_set fs (str "/tmp/temp_ipo.docx") doc).
Proof.
  intros Hst.
  destruct (selected_tasks_keys checkbox number_input)
    as (st' & Hst' & _ & _ & Hknown).
  assert (st' = st) as -> by congruence.
  eexists. split; [by apply build_document_run |].
  rewrite (on_generate_run _ _ _ _ _ Hknown).
  by rewrite (build_document_run _ _ _ _ _ Hknown).
Qed.

Lemma button_offers_new_document_witness :
  ∃ doc,
    build_document ascii_only ascii_only (prepare_project_info example_form)
      (prepare_client_info example_form)
      [(str "110", selected_record None task_110)] new_Document
    = (Return (), doc)
    ∧ on_generate ascii_only ascii_only example_form
        [(str "110", selected_record None task_110)]
        [(str "/tmp/temp_ipo.docx", new_Document)]
      = (Download doc
           (download_filename (Form.ipo_number example_form)
              (Form.project_name example_form)),
         dict_set [(str "/tmp/temp_ipo.docx", new_Document)]
           (str "/tmp/temp_ipo.docx") doc).
Proof.
  apply (button_offers_new_document ascii_only ascii_only example_form
           only_110 fee_blank).
  vm_compute. reflexivity.
Defined.

(** X10. A form that passes the validation gives a document with both
    understanding sections: its body is the title block, the opening
    clause, the identification block (with the second name line exactly
    when that field is not empty), the overall-understanding section, the
    lot-understanding section and the scope of services, each given by its
    paragraphs. *)
Theorem validated_form_sections ul uu (f : Form.t)
    (st : dict SelectedTask) :
  can_generate f st = true →
  tasks_known st →
  paragraphs
    (build_document ul uu (prepare_project_info f) (prepare_client_info f) st
       new_Document).2
  = title_paragraphs (upper uu (Form.project_title f)) (Form.ipo_number f)
    ++ opening_paragraphs (Form.client_name f) (Form.master_agreement_date f)
    ++ identification_paragraphs (Form.project_name f)
         (Some (Form.project_name_line2 f)) (Form.project_manager f)
         (Form.project_number f)
    ++ [heading_paragraph (str "Overall Project Understanding:")
          WD_ALIGN_PARAGRAPH.LEFT;
        empty_paragraph; body_paragraph (Form.overall_understanding f);
        empty_paragraph]
    ++ [heading_paragraph (str "Lot Specific Project Understanding:")
          WD_ALIGN_PARAGRAPH.LEFT;
        empty_paragraph; body_paragraph (Form.lot_understanding f);
        empty_paragraph]
    ++ scope_paragraphs ul st.
Proof.
  intros Hcan Hknown.
  apply can_generate_iff in Hcan
    as (_ & _ & _ & _ & _ & _ & _ & Hoverall & Hlot & _).
  rewrite (build_document_expected _ _ _ _ _ Hknown).
  unfold expected_document.
  cbn [snd paragraphs prepare_project_info prepare_client_info pi_title
       pi_ipo_number pi_name pi_name_line2 pi_project_manager
       pi_project_number pi_overall_understanding pi_lot_understanding
       ci_name ci_master_agreement_date].
  destruct (Form.overall_understanding f) as [|c1 s1]; [done |].
  destruct (Form.lot_understanding f) as [|c2 s2]; [done |].
  by destruct (Form.project_name_line2 f).
Qed.

Lemma validated_form_sections_witness :
  paragraphs
    (build_document ascii_only ascii_only (prepare_project_info example_form)
       (prepare_client_info example_form) example_tasks new_Document).2
  = title_paragraphs (upper ascii_only (Form.project_title example_form))
      (Form.ipo_number example_form)
    ++ opening_paragraphs (Form.client_name example_form)
         (Form.master_agreement_date example_form)
    ++ identification_paragraphs (Form.project_name example_form)
         (Some (Form.project_name_line2 example_form))
         (Form.project_manager example_form)
         (Form.project_number example_form)
    ++ [heading_paragraph (str "Overall Project Understanding:")
          WD_ALIGN_PARAGRAPH.LEFT;
        empty_paragraph;
        body_paragraph (Form.overall_understanding example_form);
        empty_paragraph]
    ++ [heading_paragraph (str "Lot Specific Project Understanding:")
          WD_ALIGN_PARAGRAPH.LEFT;
        empty_paragraph;
        body_paragraph (Form.lot_understanding example_form);
        empty_paragraph]
    ++ scope_paragraphs ascii_only example_tasks.
Proof.
  apply (validated_form_sections ascii_only ascii_only example_form
           example_tasks).
  - vm_compute. reflexivity.
  - apply tasks_known_Forall.
    repeat constructor; eexists; vm_compute; reflexivity.
Defined.

(** X11. When the generation raises, the button shows the error and offers
    no download, even if the store still holds the file of an earlier run
    at the temporary path; the store is left as it was. *)
Theorem failed_generation_offers_nothing ul uu (f : Form.t)
    (st : dict SelectedTask) (fs : FileStore) :
  ¬ tasks_known st →
  ∃ k, k ∈ dict_keys st
       ∧ on_generate ul uu f st fs = (ErrorShown (KeyError k), fs).
Proof.
  intros Hunknown.
  destruct (build_document_unknown ul uu (prepare_project_info f)
              (prepare_client_info f) st Hunknown) as (k & Hin & _ & Hr).
  exists k. split; [done |].
  unfold on_generate, generate_msa_ipo_document. cbv zeta.
  destruct (build_document _ _ _ _ _ _) as [r doc]. simpl in Hr. by subst r.
Qed.

Lemma failed_generation_offers_nothing_witness :
  ∃ k, k ∈ dict_keys [(str "999", mkSelectedTask (str "Survey") 1000 []);
                      (str "300", mkSelectedTask (str "Landscape") 500 [])]
       ∧ on_generate ascii_only ascii_only example_form
           [(str "999", mkSelectedTask (str "Survey") 1000 []);
            (str "300", mkSelectedTask (str "Landscape") 500 [])]
           [(str "/tmp/temp_ipo.docx", new_Document)]
         = (ErrorShown (KeyError k),
            [(str "/tmp/temp_ipo.docx", new_Document)]).
Proof.
  apply (failed_generation_offers_nothing ascii_only ascii_only example_form).
  apply two_unknown_codes_not_known.
Defined.

(** ** The section builders one by one *)

Lemma ascii_upper_no_lower (s : pystr) :
  Forall (λ c, ¬ (97 ≤ c ≤ 122)%N) (ascii_upper_char <$> s).
Proof.
  apply Forall_fmap, Forall_forall. intros c _. simpl. unfold ascii_upper_char.
  destruct (97 <=? c)%N eqn:H1; destruct (c <=? 122)%N eqn:H2; simpl;
    rewrite ?N.leb_le, ?N.leb_gt in *; lia.
Qed.

(** X12. The title builder appends four paragraphs to any document and
    changes nothing else: the upper-cased title, bold, centred, 12 pt; the
    order-number line, bold, centred, 10 pt; two blank lines.  An ASCII
    title keeps its length and is left without lower-case letters. *)
Theorem title_block uu (project_name ipo_number : pystr) (d : Document) :
  ∃ text,
    add_title_section uu project_name ipo_number d
    = (Return (), append_paragraphs d
         [spaced_paragraph [calibri_run text (Pt 12) (Some true) None None]
            (Some WD_ALIGN_PARAGRAPH.CENTER) [];
          spaced_paragraph
            [calibri_run (str "INDIVIDUAL PROJECT ORDER NUMBER " ++ ipo_number)
               (Pt 10) (Some true) None None]
            (Some WD_ALIGN_PARAGRAPH.CENTER) [];
          empty_paragraph; empty_paragraph])
    ∧ text = upper uu project_name
    ∧ (is_ascii project_name = true →
       length text = length project_name
       ∧ Forall (λ c, ¬ (97 ≤ c ≤ 122)%N) text).
Proof.
  exists (upper uu project_name). split; [apply add_title_section_run |].
  split; [done |]. intros Hascii. unfold upper. rewrite Hascii.
  split; [by rewrite length_fmap | apply ascii_upper_no_lower].
Qed.

Lemma occurs_in_app_r (sub pre s : pystr) :
  occurs_in sub s → occurs_in sub (pre ++ s).
Proof.
  intros (a & b & ->). exists (pre ++ a), b. by rewrite <- (assoc_L (++)).
Qed.

Lemma occurs_in_prefix (sub post : pystr) : occurs_in sub (sub ++ post).
Proof. by exists [], post. Qed.

(** X13. The opening builder appends one justified 11 pt paragraph and a
    blank line; the client name and the date of the master agreement stand
    in its text as they were entered. *)
Theorem opening_clause (client_name master_agreement_date : pystr)
    (d : Document) :
  ∃ text,
    add_opening_paragraph client_name master_agreement_date d
    = (Return (), append_paragraphs d [body_paragraph text; empty_paragraph])
    ∧ occurs_in client_name text
    ∧ occurs_in master_agreement_date text.
Proof.
  eexists. split; [apply add_opening_paragraph_run |]. split.
  - do 2 apply occurs_in_app_r. apply occurs_in_prefix.
  - do 5 apply occurs_in_app_r. apply occurs_in_prefix.
Qed.

(** X14. A labelled section with [n] content blocks is the heading, a blank
    line and, for each block in order, its justified paragraph and a blank
    line: [2 + 2 * n] paragraphs, and with no content the heading and the
    blank line alone. *)
Theorem labelled_section (heading_text : pystr)
    (content_paragraphs : list pystr) (d : Document) :
  ∃ ps,
    add_section_with_heading heading_text content_paragraphs d
    = (Return (), append_paragraphs d
         (heading_paragraph heading_text WD_ALIGN_PARAGRAPH.LEFT
          :: empty_paragraph :: ps))
    ∧ length ps = 2 * length content_paragraphs
    ∧ (∀ i content,
         content_paragraphs !! i = Some content →
         ps !! (2 * i) = Some (body_paragraph content)
         ∧ ps !! (2 * i + 1) = Some empty_paragraph).
Proof.
  exists (flat_map (λ content, [body_paragraph content; empty_paragraph])
            content_paragraphs).
  split; [apply add_section_with_heading_run |].
  induction content_paragraphs as [|c l [IHlen IH]]; [done |].
  split; [simpl; lia |].
  intros [|i] content Hi.
  - injection Hi as ->. done.
  - replace (2 * S i) with (S (S (2 * i))) by lia.
    replace (S (S (2 * i)) + 1) with (S (S (2 * i + 1))) by lia.
    by apply IH.
Qed.

(** X15. In the identification block the lines between the heading with
    its blank line and the closing blank line are label lines, three or,
    with a second name line, four: each has one left tab stop at 2.5
    inches and a first run that ends with a tab. *)
Theorem identification_lines_aligned (project_name : pystr)
    (project_name_line2 : option pystr)
    (project_manager project_number : pystr) (d : Document) :
  ∃ lines,
    add_project_identification project_name project_name_line2
      project_manager project_number d
    = (Return (), append_paragraphs d
         ([heading_paragraph (str "Identification of Project:")
             WD_ALIGN_PARAGRAPH.LEFT;
           empty_paragraph]
          ++ lines ++ [empty_paragraph]))
    ∧ Forall tab_aligned lines
    ∧ length lines = (if truthy project_name_line2 then 4 else 3).
Proof.
  exists ([label_paragraph (str "Project Name:" ++ [9%N]) project_name]
          ++ (if truthy project_name_line2
              then [name_line2_paragraph (default [] project_name_line2)]
              else [])
          ++ [label_paragraph (str "KH Project Manager:" ++ [9%N])
                project_manager;
              label_paragraph (str "Project Number:" ++ [9%N])
                project_number]).
  rewrite add_project_identification_run.
  split; [by rewrite <- !(assoc_L (++)) |].
  assert (∀ label value,
            tab_aligned (label_paragraph (label ++ [9%N]) value)) as Hlabel.
  { intros label value. split; [done |]. eexists _, _. split; [done |].
    apply endswith_spec. by exists label. }
  assert (∀ value, tab_aligned (name_line2_paragraph value)) as Hline2.
  { intros value. split; [done |]. by eexists _, _. }
  destruct (truthy project_name_line2); split; try done;
    repeat (apply Forall_cons_2; [by auto |]); done.
Qed.

(** X16. The footer builder leaves the body and the margins alone and
    replaces the runs of the first footer paragraph by one run in Calibri,
    9 pt, left-aligned; run again with another text, it leaves that text
    only. *)
Theorem footer_caption_replaced (first_text footer_text : pystr)
    (d : Document) (p : Paragraph) (rest : list Paragraph) :
  footer_paragraphs d = p :: rest →
  add_simple_footer footer_text d
  = (Return (),
     mkDocument (paragraphs d) (top_margin d) (bottom_margin d)
       (left_margin d) (right_margin d)
       (mkParagraph [calibri_run footer_text (Pt 9) None None None]
          (Some WD_ALIGN_PARAGRAPH.LEFT) (paragraph_format p) :: rest))
  ∧ (add_simple_footer first_text ;; add_simple_footer footer_text) d
    = add_simple_footer footer_text d.
Proof.
  intros Hfp. split; [by apply add_simple_footer_run |].
  unfold bind at 1. rewrite (add_simple_footer_run first_text d p rest Hfp).
  rewrite (add_simple_footer_run footer_text d p rest Hfp).
  by erewrite add_simple_footer_run by reflexivity.
Qed.

Lemma footer_caption_replaced_witness :
  add_simple_footer (str "rev 07/2024") new_Document
  = (Return (),
     mkDocument (paragraphs new_Document) (top_margin new_Document)
       (bottom_margin new_Document) (left_margin new_Document)
       (right_margin new_Document)
       (mkParagraph [calibri_run (str "rev 07/2024") (Pt 9) None None None]
          (Some WD_ALIGN_PARAGRAPH.LEFT) (paragraph_format empty_paragraph)
        :: []))
  ∧ (add_simple_footer (str "draft") ;;
     add_simple_footer (str "rev 07/2024")) new_Document
    = add_simple_footer (str "rev 07/2024") new_Document.
Proof.
  apply (footer_caption_replaced (str "draft") (str "rev 07/2024")
           new_Document empty_paragraph []).
  reflexivity.
Defined.
